(** * AML engine: a shallow embedding of the detection pipeline

    The development follows the JavaScript sources one class per module:
    [Store] (the persisted document), [BaselineEngine], [PatternDetector],
    [NetworkAnalyzer], [EvidenceEngine], [AlertGenerator], [AMLEngine] and
    [Auth].

    Modelling conventions.
    - A JavaScript number that carries an amount or a ratio is an IEEE-754
      binary64 value: Rocq's primitive [float], whose operations are the
      same ones.  Array lengths and scores are integers in the source and
      are [nat] / [Z] here.
    - An instant is the number of milliseconds since the epoch, a [Z].
      A transaction's [timestamp] is a string that the source parses with
      [new Date(..)] at every use; the record holds the result of that
      parse, [None] standing for an Invalid Date (whose time value is NaN:
      every comparison with it is false).
    - [Date.now()] and [new Date()] are the argument [now] of each
      operation: an entry point runs to completion at one instant.
    - [Math.random()] is an explicit supply of draws threaded through the
      operations that log to the audit trail.
    - [localStorage] holds one JSON document; [getData]/[saveData] parse and
      print it.  A string, an integer and a finite number are read back as
      they were written (JSON prints NaN and the infinities as null, and
      -0 as 0), and the store is modelled by the document itself. *)

From Stdlib Require Import ZArith Floats Uint63 Ascii String Sorted.
From stdpp Require Import gmap strings list.

Local Open Scope string_scope.
Local Open Scope list_scope.
Set Warnings "-inexact-float".

(** ** JavaScript values used by the engine *)

Module JS.

(** ToBoolean on a number: 0, -0 and NaN are falsy. *)
Definition truthy (x : float) : bool :=
  negb (PrimFloat.eqb x 0 || PrimFloat.is_nan x).

(** [x || d] on numbers. *)
Definition orElse (x d : float) : float := if truthy x then x else d.

(** The number that an integer denotes (exact below 2^53). *)
Definition ofZ (z : Z) : float :=
  match z with
  | Z0 => 0%float
  | Zpos _ => PrimFloat.of_uint63 (Uint63.of_Z z)
  | Zneg p => PrimFloat.opp (PrimFloat.of_uint63 (Uint63.of_Z (Zpos p)))
  end.

Definition ofNat (n : nat) : float := ofZ (Z.of_nat n).

(** [a > b], [a >= b], [a < b], [a <= b]: false as soon as one side is NaN. *)
Definition gt (a b : float) : bool := PrimFloat.ltb b a.
Definition ge (a b : float) : bool := PrimFloat.leb b a.
Definition lt (a b : float) : bool := PrimFloat.ltb a b.
Definition le (a b : float) : bool := PrimFloat.leb a b.

(** [Math.max] on two numbers (the sign of a zero result is not tracked). *)
Definition max (a b : float) : float :=
  if PrimFloat.is_nan a || PrimFloat.is_nan b then PrimFloat.nan
  else if PrimFloat.ltb a b then b else a.

(** [Math.floor] of a finite number, as an integer. *)
Definition floor (x : float) : option Z :=
  match Prim2SF x with
  | S754_zero _ => Some 0%Z
  | S754_finite s m e => Some (Z.shiftl (if s then Zneg m else Zpos m) e)
  | _ => None
  end.

(** [arr[i]] with the index computed in floating point. *)
Definition at_floor (l : list float) (i : float) : option float :=
  match floor i with
  | Some (Zpos p) => l !! Pos.to_nat p
  | Some Z0 => l !! 0%nat
  | _ => None
  end.

(** [Array.prototype.sort(cmp)] is stable; with a comparator that orders
    its arguments consistently every engine returns this list. *)
Section Sort.
Context {A : Type} (before : A -> A -> bool).
(** [before y x]: the comparator puts [y] strictly before [x]. *)
Fixpoint insert (x : A) (l : list A) : list A :=
  match l with
  | [] => [x]
  | y :: l' => if before y x then y :: insert x l' else x :: l
  end.
Definition sort (l : list A) : list A := foldr insert [] l.
End Sort.

(** [new Set(l)]: first occurrences, in insertion order. *)
Definition setOf `{EqDecision A} (l : list A) : list A :=
  reverse (remove_dups (reverse l)).


(** Integers printed in a radix, as [Number.prototype.toString(radix)]
    prints an integral value (lower-case digits, a leading minus sign). *)
Definition digitChar (d : N) : ascii :=
  if (d <? 10)%N then ascii_of_N (48 + d) else ascii_of_N (87 + d).

Fixpoint digits (fuel : nat) (radix n : N) (acc : string) : string :=
  match fuel with
  | O => acc
  | S fuel' =>
      let acc' := String (digitChar (n mod radix)) acc in
      if (n / radix =? 0)%N then acc' else digits fuel' radix (n / radix) acc'
  end.

Definition toStringRadix (radix : N) (z : Z) : string :=
  match z with
  | Z0 => "0"
  | Zpos p => digits (Pos.size_nat p) radix (Npos p) ""
  | Zneg p => "-" +:+ digits (Pos.size_nat p) radix (Npos p) ""
  end.

Definition showZ (z : Z) : string := toStringRadix 10 z.
Definition showNat (n : nat) : string := showZ (Z.of_nat n).

(** Dates.  [Some t] is the instant [t] ms after the epoch, [None] an
    Invalid Date. *)
Definition Date := option Z.

Definition date_lt (a b : Date) : bool :=
  match a, b with Some x, Some y => (x <? y)%Z | _, _ => false end.
Definition date_gt (a b : Date) : bool := date_lt b a.
Definition date_ge (a b : Date) : bool :=
  match a, b with Some x, Some y => (y <=? x)%Z | _, _ => false end.

(** [a - b] on dates, in milliseconds. *)
Definition date_diff (a b : Date) : option Z :=
  match a, b with Some x, Some y => Some (x - y)%Z | _, _ => None end.

Definition msPerHour : Z := 60 * 60 * 1000.
Definition msPerDay : Z := 1000 * 60 * 60 * 24.

(** What the host supplies: the offset of local civil time from UTC (taken
    constant) and the decimal printing of a number. *)
Class Runtime := {
  tzOffsetMs : Z;
  numberToString : float -> string
}.

Section LocalTime.
Context `{Runtime}.

(** [new Date(y, m, d)] for the local date of [now]: local midnight. *)
Definition startOfDay (now : Z) : Z :=
  (now - (now + tzOffsetMs) `mod` msPerDay)%Z.

(** [getHours()]: NaN on an Invalid Date. *)
Definition getHours (d : Date) : option Z :=
  (fun t => ((t + tzOffsetMs) `mod` msPerDay) `div` msPerHour)%Z <$> d.

(** [toDateString()]: the local civil day; every Invalid Date prints
    the same text. *)
Definition toDateString (d : Date) : option Z :=
  (fun t => (t + tzOffsetMs) `div` msPerDay)%Z <$> d.
End LocalTime.

End JS.

Export JS (Runtime, tzOffsetMs, numberToString).

(** ** Data model *)

Record Transaction := {
  tx_id : string;
  tx_sender : string;
  tx_receiver : string;
  tx_amount : float;
  tx_timestamp : JS.Date;
  tx_bankAccount : string
}.

Inductive RiskLevel := Normal | Suspicious | HighRisk | ProbableML.
Inductive Severity := low | medium | high | critical.

#[global] Instance RiskLevel_eq_dec : EqDecision RiskLevel.
Proof. solve_decision. Defined.
#[global] Instance Severity_eq_dec : EqDecision Severity.
Proof. solve_decision. Defined.

(** The text of a risk level, as the source spells it. *)
Definition riskLevelName (r : RiskLevel) : string :=
  match r with
  | Normal => "Normal"
  | Suspicious => "Suspicious"
  | HighRisk => "High Risk"
  | ProbableML => "Probable Money Laundering"
  end.

Definition severityName (s : Severity) : string :=
  match s with
  | low => "low" | medium => "medium" | high => "high" | critical => "critical"
  end.

Record Baseline := {
  bl_accountId : string;
  avgDailyInflow : float;
  avgDailyOutflow : float;
  avgTxFrequency : float;
  avgUniqueSenders : float;
  avgUniqueReceivers : float;
  typicalAmountRange : float * float;
  accountAge : Z;
  totalTransactions : nat;
  bl_lastUpdated : Z
}.

(** Deviations reported by [checkDeviation].  The [description] texts of the
    source are printed from the fields kept here and are not modelled. *)
Inductive DeviationType := amount_deviation | first_transaction | range_deviation.

#[global] Instance DeviationType_eq_dec : EqDecision DeviationType.
Proof. solve_decision. Defined.

Record Deviation := {
  dev_type : DeviationType;
  dev_severity : Severity;
  dev_ratio : option float
}.

Record DeviationAnalysis := {
  hasDeviation : bool;
  deviations : list Deviation;
  da_baseline : Baseline
}.

(** Entries of [findSuspiciousTransactions], tagged by their [type]; each
    carries the figures its [flag] or [deviations] field holds. *)
Inductive SuspiciousKind :=
| baseline_deviation (devs : list Deviation)
| frequency_spike (txCountToday : nat)
| sender_count_spike (uniqueSendersToday : nat)
| similar_value_repeat (similar : nat)
| unusual_timing (hour : Z).

Definition suspicious_type (k : SuspiciousKind) : string :=
  match k with
  | baseline_deviation _ => "baseline_deviation"
  | frequency_spike _ => "frequency_spike"
  | sender_count_spike _ => "sender_count_spike"
  | similar_value_repeat _ => "similar_value_repeat"
  | unusual_timing _ => "unusual_timing"
  end.

Record SuspiciousTx := {
  stx_txId : string;
  stx_kind : SuspiciousKind;
  stx_transaction : Transaction
}.

Record Cycle := {
  inflowId : string;
  outflowId : string;
  cyc_amount : float;
  timeDiffMinutes : float
}.

(** Detected patterns, tagged by [type], with their [evidence]. *)
Inductive Pattern :=
| smurfing (uniqueSenders totalTxs : nat) (clustered : bool)
| layering (cycles : list Cycle) (avgTimeDiff : float)
| structuring (transactionCount daysSpread : nat) (threshold avgAmount : float)
| income_mismatch (sev : Severity) (recentDailyAvg baselineAvg ratio : float) (age : Z).

Definition pattern_type (p : Pattern) : string :=
  match p with
  | smurfing _ _ _ => "smurfing"
  | layering _ _ => "layering"
  | structuring _ _ _ _ => "structuring"
  | income_mismatch _ _ _ _ _ => "income_mismatch"
  end.

Definition pattern_severity (p : Pattern) : Severity :=
  match p with
  | income_mismatch sev _ _ _ _ => sev
  | _ => high
  end.

(** Network signals, tagged by [type], with their [evidence]. *)
Inductive Signal :=
| circular_flow (path : list Transaction)
| hub_account (uniqueSenders uniqueReceivers rapidRedistributions
               totalInflows totalOutflows : nat)
| flagged_links (linkedAccounts : list string) (connections : list Transaction).

Definition signal_severity (s : Signal) : Severity :=
  match s with
  | flagged_links _ _ => high
  | _ => critical
  end.

Record NetworkAnalysis := {
  na_accountId : string;
  na_networkSignals : nat;
  na_isProbableML : bool;
  na_signals : list Signal
}.

Record EvidenceCounts := {
  suspiciousTransactions : nat;
  confirmedPatterns : nat;
  networkSignals : nat;
  isProbableML : bool
}.

Record EvaluationDetails := {
  suspiciousTxs : list SuspiciousTx;
  patterns : list Pattern;
  det_networkSignals : list Signal
}.

Record Evaluation := {
  ev_accountId : string;
  ev_score : Z;
  ev_riskLevel : RiskLevel;
  ev_evidence : EvidenceCounts;
  ev_details : EvaluationDetails;
  ev_baseline : Baseline;
  ev_timestamp : Z;
  (* set by [AMLEngine.processTransaction] *)
  alertGenerated : bool;
  alertId : option string
}.

(** The record persisted under [accountEvidence[accountId]]. *)
Record Evidence := {
  ae_score : Z;
  ae_riskLevel : RiskLevel;
  ae_suspiciousTransactions : nat;
  ae_confirmedPatterns : nat;
  ae_networkSignals : nat;
  ae_isProbableML : bool;
  ae_lastUpdated : Z
}.

Record TimelineEvent := {
  te_timestamp : JS.Date;
  te_type : string;
  te_description : string;
  te_txId : option string;
  te_severity : option Severity
}.

(** An alert.  [behaviorSummary], [detectedPatterns] and
    [networkRelationships] are multi-line texts in the source, printed from
    the baseline, the suspicious entries, the patterns and the signals of
    the evaluation; the record keeps those values. *)
Record Alert := {
  al_id : string;
  al_accountId : string;
  al_severity : Severity;
  al_riskLevel : RiskLevel;
  al_score : Z;
  al_timestamp : Z;
  al_status : string;
  al_summary : string;
  al_behaviorSummary : Baseline * list SuspiciousTx;
  al_detectedPatterns : list Pattern;
  al_timeline : list TimelineEvent;
  al_networkRelationships : list Signal;
  al_evidenceBreakdown : nat * nat * nat;
  al_recommendations : list string
}.

Record User := {
  user_id : string;
  username : string;
  role : string;
  password : string
}.

Record AuditLog := {
  log_id : string;
  log_timestamp : Z;
  log_user : string;
  log_action : string;
  log_details : string
}.

(** The document kept in [localStorage].  [accountEvidence] is an object used
    as a map from account ids to records; the source creates it, and
    [alerts], when absent, which is the empty map and the empty list here. *)
Record Data := {
  users : list User;
  transactions : list Transaction;
  alerts : list Alert;
  auditLogs : list AuditLog;
  watchlist : list string;
  accountEvidence : gmap string Evidence
}.

Definition set_users (l : list User) (d : Data) : Data :=
  {| users := l; transactions := transactions d; alerts := alerts d;
     auditLogs := auditLogs d; watchlist := watchlist d;
     accountEvidence := accountEvidence d |}.

Definition set_transactions (l : list Transaction) (d : Data) : Data :=
  {| users := users d; transactions := l; alerts := alerts d;
     auditLogs := auditLogs d; watchlist := watchlist d;
     accountEvidence := accountEvidence d |}.

Definition set_alerts (l : list Alert) (d : Data) : Data :=
  {| users := users d; transactions := transactions d; alerts := l;
     auditLogs := auditLogs d; watchlist := watchlist d;
     accountEvidence := accountEvidence d |}.

Definition set_auditLogs (l : list AuditLog) (d : Data) : Data :=
  {| users := users d; transactions := transactions d; alerts := alerts d;
     auditLogs := l; watchlist := watchlist d;
     accountEvidence := accountEvidence d |}.

Definition set_accountEvidence (m : gmap string Evidence) (d : Data) : Data :=
  {| users := users d; transactions := transactions d; alerts := alerts d;
     auditLogs := auditLogs d; watchlist := watchlist d;
     accountEvidence := m |}.

(** The supply behind [Math.random().toString(36).substr(2)]: the text of
    the [n]-th draw, and how many draws were made. *)
Record Entropy := {
  draws : nat -> string;
  position : nat
}.

Definition Math_random (e : Entropy) : string * Entropy :=
  (draws e (position e), {| draws := draws e; position := S (position e) |}).

(** What an operation of the engine can read and change. *)
Record World := {
  storage : Data;
  entropy : Entropy
}.

(** ** Store

    The operations of the store that the engine calls. *)

Module Store.
Section WithRuntime.
Context `{Runtime}.

Definition getData (w : World) : Data := storage w.

Definition saveData (d : Data) (w : World) : World :=
  {| storage := d; entropy := entropy w |}.

Definition logAudit (now : Z) (user action details : string) (w : World) : World :=
  let data := getData w in
  let (suffix, e') := Math_random (entropy w) in
  let log := {| log_id := JS.toStringRadix 36 now +:+ suffix;
                log_timestamp := now;
                log_user := user;
                log_action := action;
                log_details := details |} in
  {| storage := set_auditLogs (log :: auditLogs data) data; entropy := e' |}.

Definition initialData : Data :=
  {| users := [ {| user_id := "u1"; username := "analyst"; role := "analyst"; password := "password" |};
                {| user_id := "u2"; username := "auditor"; role := "auditor"; password := "password" |} ];
     transactions := [];
     alerts := [];
     auditLogs := [];
     watchlist := ["SanctionedEntity_001"; "BadActor_99"; "Launderer_X"];
     accountEvidence := ∅ |}.

(** [init] on an empty [localStorage]. *)
Definition init (now : Z) (e : Entropy) : World :=
  logAudit now "System" "Initialization" "System initialized with default data."
           {| storage := initialData; entropy := e |}.

Definition addTransaction (now : Z) (transaction : Transaction) (w : World) : World :=
  let data := getData w in
  let w1 := saveData (set_transactions (transaction :: transactions data) data) w in
  logAudit now "System" "Transaction Added"
           ("ID: " +:+ tx_id transaction +:+ ", Amount: " +:+ numberToString (tx_amount transaction))
           w1.

Definition getTransactions (w : World) : list Transaction :=
  transactions (getData w).

Definition getAlerts (w : World) : list Alert := alerts (getData w).
Definition getAuditLogs (w : World) : list AuditLog := auditLogs (getData w).

Definition addUser (now : Z) (user : User) (w : World) : World :=
  let data := getData w in
  let w1 := saveData (set_users (users data ++ [user]) data) w in
  logAudit now "System" "User Registered"
           ("New user registered: " +:+ username user +:+ " (" +:+ role user +:+ ")")
           w1.



End WithRuntime.
End Store.

(** ** BaselineEngine *)

Module BaselineEngine.

(** [tx.sender === accountId || tx.receiver === accountId] *)
Definition involves (accountId : string) (tx : Transaction) : bool :=
  String.eqb (tx_sender tx) accountId || String.eqb (tx_receiver tx) accountId.

Definition isInflow (accountId : string) (tx : Transaction) : bool :=
  String.eqb (tx_receiver tx) accountId.

Definition isOutflow (accountId : string) (tx : Transaction) : bool :=
  String.eqb (tx_sender tx) accountId.

Definition sumAmounts (l : list Transaction) : float :=
  fold_left (fun sum tx => (sum + tx_amount tx)%float) l 0%float.

Definition getDefaultBaseline (now : Z) (accountId : string) : Baseline :=
  {| bl_accountId := accountId;
     avgDailyInflow := 0; avgDailyOutflow := 0; avgTxFrequency := 0;
     avgUniqueSenders := 0; avgUniqueReceivers := 0;
     typicalAmountRange := (0%float, 0%float);
     accountAge := 0;
     totalTransactions := 0;
     bl_lastUpdated := now |}.

(** [accountTxs.reduce((earliest, tx) => .. < .. ? tx : earliest)] *)
Definition firstTransaction (tx0 : Transaction) (rest : list Transaction) : Transaction :=
  fold_left (fun earliest tx =>
               if JS.date_lt (tx_timestamp tx) (tx_timestamp earliest) then tx else earliest)
            rest tx0.

(** [Math.floor((Date.now() - new Date(firstTx.timestamp)) / msPerDay) || 1].
    Both instants are integers below 2^53 in absolute value, for which
    the floating-point quotient has the floor of the exact one; NaN (an
    Invalid Date) and 0 are falsy. *)
Definition ageInDays (now : Z) (first : JS.Date) : Z :=
  match first with
  | None => 1
  | Some t =>
      let days := ((now - t) `div` JS.msPerDay)%Z in
      if (days =? 0)%Z then 1%Z else days
  end.

(** [amounts[Math.floor(amounts.length * q)] || 0] *)
Definition percentile (amounts : list float) (q : float) : float :=
  match JS.at_floor amounts (JS.ofNat (length amounts) * q)%float with
  | Some v => JS.orElse v 0
  | None => 0%float
  end.

Definition calculateBaseline (now : Z) (accountId : string)
           (allTransactions : list Transaction) : Baseline :=
  let accountTxs := List.filter (involves accountId) allTransactions in
  match accountTxs with
  | [] => getDefaultBaseline now accountId
  | tx0 :: rest =>
      let firstTx := firstTransaction tx0 rest in
      let accountAge := ageInDays now (tx_timestamp firstTx) in
      let inflows := List.filter (isInflow accountId) accountTxs in
      let outflows := List.filter (isOutflow accountId) accountTxs in
      let totalInflow := sumAmounts inflows in
      let totalOutflow := sumAmounts outflows in
      let uniqueSenders := length (JS.setOf (map tx_sender inflows)) in
      let uniqueReceivers := length (JS.setOf (map tx_receiver outflows)) in
      let amounts := JS.sort (fun a b => (a - b <? 0)%float) (map tx_amount accountTxs) in
      {| bl_accountId := accountId;
         avgDailyInflow := (totalInflow / JS.ofZ accountAge)%float;
         avgDailyOutflow := (totalOutflow / JS.ofZ accountAge)%float;
         avgTxFrequency := (JS.ofNat (length accountTxs) / JS.ofZ accountAge)%float;
         avgUniqueSenders := (JS.ofNat uniqueSenders / JS.ofZ accountAge)%float;
         avgUniqueReceivers := (JS.ofNat uniqueReceivers / JS.ofZ accountAge)%float;
         typicalAmountRange := (percentile amounts 0.1, percentile amounts 0.9);
         accountAge := accountAge;
         totalTransactions := length accountTxs;
         bl_lastUpdated := now |}
  end.

Definition checkDeviation (transaction : Transaction) (baseline : Baseline)
  : DeviationAnalysis :=
  (* Amount deviation (sender perspective): [if (transaction.sender)] *)
  let fromSender :=
    if negb (String.eqb (tx_sender transaction) "") then
      if JS.gt (avgDailyOutflow baseline) 0 then
        let amountRatio := (tx_amount transaction / avgDailyOutflow baseline)%float in
        if JS.gt amountRatio 3 then
          [ {| dev_type := amount_deviation;
               dev_severity := if JS.gt amountRatio 5 then high else medium;
               dev_ratio := Some amountRatio |} ]
        else []
      else if JS.gt (tx_amount transaction) 0 then
        [ {| dev_type := first_transaction; dev_severity := medium; dev_ratio := None |} ]
      else []
    else [] in
  (* Out of typical range *)
  let maxTypical := snd (typicalAmountRange baseline) in
  let outOfRange :=
    if JS.gt maxTypical 0 && JS.gt (tx_amount transaction) (maxTypical * 1.5)%float then
      [ {| dev_type := range_deviation; dev_severity := medium; dev_ratio := None |} ]
    else [] in
  let deviations := fromSender ++ outOfRange in
  {| hasDeviation := (0 <? length deviations)%nat;
     deviations := deviations;
     da_baseline := baseline |}.

(** [getRecentActivity(accountId, transactions, hoursBack)] *)
Definition getRecentActivity (now : Z) (accountId : string)
           (transactions : list Transaction) (hoursBack : Z) : list Transaction :=
  let cutoff := (now - hoursBack * 60 * 60 * 1000)%Z in
  List.filter (fun tx => involves accountId tx && JS.date_gt (tx_timestamp tx) (Some cutoff))
              transactions.


End BaselineEngine.

(** ** PatternDetector *)

Module PatternDetector.
Import BaselineEngine.

Section WithRuntime.
Context `{Runtime}.

(** [a - b] on dates as a number: NaN when one of them is invalid. *)
Definition elapsed (a b : JS.Date) : float :=
  match JS.date_diff a b with
  | Some d => JS.ofZ d
  | None => PrimFloat.nan
  end.

Definition sumFloats (l : list float) : float :=
  fold_left (fun a b => (a + b)%float) l 0%float.

(** Pattern A: smurfing (many-to-one). *)
Definition detectSmurfing (accountId : string) (recentTxs : list Transaction)
  : option Pattern :=
  let inflows := List.filter (isInflow accountId) recentTxs in
  let uniqueSenders := JS.setOf (map tx_sender inflows) in
  if (6 <=? length uniqueSenders)%nat then
    let amounts := map tx_amount inflows in
    let avgAmount := (sumFloats amounts / JS.ofNat (length amounts))%float in
    let near := List.filter
                  (fun amt => JS.lt (PrimFloat.abs (amt - avgAmount) / avgAmount)%float 0.2)
                  amounts in
    let clustered := JS.ge (JS.ofNat (length near)) (JS.ofNat (length amounts) * 0.6)%float in
    Some (smurfing (length uniqueSenders) (length inflows) clustered)
  else None.

(** Pattern B: layering (rapid in-out). *)
Definition matchingOutflow (accountId : string) (transactions : list Transaction)
           (inflow : Transaction) : option Transaction :=
  let inflowTime := tx_timestamp inflow in
  let twoHoursLater := (fun t => t + 2 * 60 * 60 * 1000)%Z <$> inflowTime in
  List.find (fun tx =>
               isOutflow accountId tx &&
               JS.date_gt (tx_timestamp tx) inflowTime &&
               JS.date_lt (tx_timestamp tx) twoHoursLater &&
               JS.lt (PrimFloat.abs (tx_amount tx - tx_amount inflow) / tx_amount inflow)%float 0.1)
            transactions.

Definition rapidCycle (accountId : string) (transactions : list Transaction)
           (inflow : Transaction) : list Cycle :=
  match matchingOutflow accountId transactions inflow with
  | Some out =>
      [ {| inflowId := tx_id inflow;
           outflowId := tx_id out;
           cyc_amount := tx_amount inflow;
           timeDiffMinutes :=
             (elapsed (tx_timestamp out) (tx_timestamp inflow) / 60000)%float |} ]
  | None => []
  end.

Definition detectLayering (accountId : string) (transactions : list Transaction)
  : option Pattern :=
  let inflows :=
    JS.sort (fun a b => JS.date_lt (tx_timestamp a) (tx_timestamp b))
            (List.filter (isInflow accountId) transactions) in
  let rapidCycles := flat_map (rapidCycle accountId transactions) inflows in
  if (3 <=? length rapidCycles)%nat then
    Some (layering rapidCycles
            (sumFloats (map timeDiffMinutes rapidCycles)
             / JS.ofNat (length rapidCycles))%float)
  else None.

(** Pattern C: structuring, against a threshold taken from the baseline. *)
Definition detectStructuring (accountId : string) (transactions : list Transaction)
           (baseline : Baseline) : option Pattern :=
  let defaultThreshold := 10000%float in
  let upperTypical := JS.orElse (snd (typicalAmountRange baseline)) 0 in
  let threshold := JS.max (upperTypical * 1.1)%float defaultThreshold in
  let lowerBound := (threshold * 0.85)%float in
  let upperBound := (threshold * 0.99)%float in
  let structuredTxs :=
    List.filter (fun tx => isOutflow accountId tx &&
                           JS.ge (tx_amount tx) lowerBound &&
                           JS.le (tx_amount tx) upperBound)
                transactions in
  if (3 <=? length structuredTxs)%nat then
    let dates := map (fun tx => JS.toDateString (tx_timestamp tx)) structuredTxs in
    let uniqueDays := length (JS.setOf dates) in
    if (2 <=? uniqueDays)%nat then
      Some (structuring (length structuredTxs) uniqueDays threshold
              (sumAmounts structuredTxs / JS.ofNat (length structuredTxs))%float)
    else None
  else None.

(** Pattern D: income mismatch. *)
Definition detectIncomeMismatch (now : Z) (accountId : string)
           (transactions : list Transaction) : option Pattern :=
  let baseline := calculateBaseline now accountId transactions in
  if (accountAge baseline <? 7)%Z then None
  else
    let recentTxs := getRecentActivity now accountId transactions (24 * 7) in
    let recentInflows := List.filter (isInflow accountId) recentTxs in
    let recentInflowTotal := sumAmounts recentInflows in
    let recentDailyAvg := (recentInflowTotal / 7)%float in
    if JS.gt (avgDailyInflow baseline) 0 then
      let ratio := (recentDailyAvg / avgDailyInflow baseline)%float in
      if JS.gt ratio 3 then
        Some (income_mismatch (if JS.gt ratio 5 then high else medium)
                recentDailyAvg (avgDailyInflow baseline) ratio (accountAge baseline))
      else None
    else None.

Definition detectPatterns (now : Z) (accountId : string)
           (transactions : list Transaction) : list Pattern :=
  let baseline := calculateBaseline now accountId transactions in
  let recentTxs := getRecentActivity now accountId transactions 48 in
  option_list (detectSmurfing accountId recentTxs)
  ++ option_list (detectLayering accountId transactions)
  ++ option_list (detectStructuring accountId transactions baseline)
  ++ option_list (detectIncomeMismatch now accountId transactions).

Record PatternSummary := {
  ps_accountId : string;
  patternCount : nat;
  ps_patterns : list string;
  highSeverityCount : nat;
  ps_details : list Pattern
}.

(** Get pattern summary for an account. *)
Definition getPatternSummary (now : Z) (accountId : string)
           (transactions : list Transaction) : PatternSummary :=
  let patterns := detectPatterns now accountId transactions in
  {| ps_accountId := accountId;
     patternCount := length patterns;
     ps_patterns := map pattern_type patterns;
     highSeverityCount :=
       length (List.filter (fun p => bool_decide (pattern_severity p = high)) patterns);
     ps_details := patterns |}.

End WithRuntime.
End PatternDetector.

(** ** NetworkAnalyzer *)

Module NetworkAnalyzer.
Import BaselineEngine.

(** [traceFundPaths(startAccount, transactions, maxDepth, currentPath, visited)].
    [remaining] is [maxDepth - currentPath.length], on which the source
    recurses: it stops at 0 and every call extends the path by one edge. *)
Fixpoint traceFundPaths (startAccount : string) (transactions : list Transaction)
         (remaining : nat) (currentPath : list Transaction) (visited : list string)
  : list (list Transaction) :=
  match remaining with
  | O => [currentPath]
  | S remaining' =>
      let lastAccount :=
        match last currentPath with
        | Some tx => tx_receiver tx
        | None => startAccount
        end in
      let outflows :=
        List.filter (fun tx => String.eqb (tx_sender tx) lastAccount &&
                               negb (existsb (String.eqb (tx_id tx)) visited))
                    transactions in
      match outflows with
      | [] => match currentPath with [] => [] | _ => [currentPath] end
      | _ =>
          flat_map (fun tx =>
                      traceFundPaths startAccount transactions remaining'
                                     (currentPath ++ [tx]) (tx_id tx :: visited))
                   outflows
      end
  end.

(** [reduce((longest, current) => current.length > longest.length ? current : longest)] *)
Definition longestPath (p0 : list Transaction) (rest : list (list Transaction))
  : list Transaction :=
  fold_left (fun longest current =>
               if (length longest <? length current)%nat then current else longest)
            rest p0.

Definition detectCircularFlow (accountId : string) (transactions : list Transaction)
  : option Signal :=
  let paths := traceFundPaths accountId transactions 5 [] [] in
  let circularPaths :=
    List.filter (fun path =>
                   match last path with
                   | Some tx => String.eqb (tx_receiver tx) accountId && (3 <=? length path)%nat
                   | None => false
                   end) paths in
  match circularPaths with
  | [] => None
  | p0 :: rest => Some (circular_flow (longestPath p0 rest))
  end.

(** Hours from the inflow to the outflow, in floating point. *)
Definition hoursBetween (outflow inflow : Transaction) : float :=
  (PatternDetector.elapsed (tx_timestamp outflow) (tx_timestamp inflow)
   / (1000 * 60 * 60))%float.

Definition detectHubBehavior (accountId : string) (transactions : list Transaction)
  : option Signal :=
  let inflows := List.filter (isInflow accountId) transactions in
  let outflows := List.filter (isOutflow accountId) transactions in
  let uniqueSenders := length (JS.setOf (map tx_sender inflows)) in
  let uniqueReceivers := length (JS.setOf (map tx_receiver outflows)) in
  if (5 <=? uniqueSenders)%nat && (5 <=? uniqueReceivers)%nat then
    let redistributed :=
      List.filter (fun inflow =>
                     existsb (fun outflow =>
                                let timeDiff := hoursBetween outflow inflow in
                                JS.gt timeDiff 0 && JS.lt timeDiff 24)
                             outflows)
                  inflows in
    let rapidRedistributions := length redistributed in
    if (3 <=? rapidRedistributions)%nat then
      Some (hub_account uniqueSenders uniqueReceivers rapidRedistributions
              (length inflows) (length outflows))
    else None
  else None.

Definition isFlagged (e : Evidence) : bool :=
  bool_decide (ae_riskLevel e = HighRisk) || bool_decide (ae_riskLevel e = ProbableML).

(** [Object.keys(accountEvidence).filter(..)]; only membership in this
    list is used below. *)
Definition flaggedAccounts (accountEvidence : gmap string Evidence) : list string :=
  map fst (List.filter (fun kv => isFlagged (snd kv)) (map_to_list accountEvidence)).

Definition includes (l : list string) (x : string) : bool := existsb (String.eqb x) l.

Definition counterparty (accountId : string) (tx : Transaction) : string :=
  if String.eqb (tx_sender tx) accountId then tx_receiver tx else tx_sender tx.

Definition detectFlaggedLinks (w : World) (accountId : string)
           (transactions : list Transaction) : option Signal :=
  let flagged := flaggedAccounts (accountEvidence (Store.getData w)) in
  match flagged with
  | [] => None
  | _ =>
      let connections :=
        List.filter (fun tx =>
                       (String.eqb (tx_sender tx) accountId && includes flagged (tx_receiver tx)) ||
                       (String.eqb (tx_receiver tx) accountId && includes flagged (tx_sender tx)))
                    transactions in
      match connections with
      | [] => None
      | _ => Some (flagged_links (JS.setOf (map (counterparty accountId) connections))
                                 connections)
      end
  end.

Definition analyzeAccount (w : World) (accountId : string)
           (transactions : list Transaction) : NetworkAnalysis :=
  let signals :=
    option_list (detectCircularFlow accountId transactions)
    ++ option_list (detectHubBehavior accountId transactions)
    ++ option_list (detectFlaggedLinks w accountId transactions) in
  {| na_accountId := accountId;
     na_networkSignals := length signals;
     na_isProbableML := (2 <=? length signals)%nat;
     na_signals := signals |}.

Record Edge := {
  source : string;
  target : string;
  edge_amount : float;
  edge_timestamp : JS.Date;
  edge_txId : string
}.

Record Graph := {
  nodes : list string;
  edges : list Edge
}.

(** Build network graph for visualization. *)
Definition buildNetworkGraph (transactions : list Transaction) : Graph :=
  {| nodes := JS.setOf (flat_map (fun tx => [tx_sender tx; tx_receiver tx]) transactions);
     edges := map (fun tx => {| source := tx_sender tx;
                                target := tx_receiver tx;
                                edge_amount := tx_amount tx;
                                edge_timestamp := tx_timestamp tx;
                                edge_txId := tx_id tx |})
                  transactions |}.

End NetworkAnalyzer.

(** ** EvidenceEngine *)

Module EvidenceEngine.
Import BaselineEngine.

Record Weights := {
  suspiciousTransaction : Z;
  confirmedPattern : Z;
  networkSignal : Z
}.

Definition weights : Weights :=
  {| suspiciousTransaction := 10; confirmedPattern := 20; networkSignal := 30 |}.

Section WithRuntime.
Context `{Runtime}.

Definition hourIn (lo hi : Z) (h : option Z) : bool :=
  match h with
  | Some x => (lo <=? x)%Z && (x <? hi)%Z
  | None => false
  end.

(** The [flag] of an unusual hour: the hour, or [null]. *)
Definition checkUnusualTiming (transaction : Transaction)
           (accountHistory : list Transaction) : option Z :=
  let hour := JS.getHours (tx_timestamp transaction) in
  if hourIn 0 5 hour then
    let normalHourTxs :=
      List.filter (fun tx => hourIn 5 24 (JS.getHours (tx_timestamp tx))) accountHistory in
    if JS.gt (JS.ofNat (length normalHourTxs)) (JS.ofNat (length accountHistory) * 0.8)%float
    then hour else None
  else None.

(** [similarTxs]: the account's transactions counted against [tx] by the
    similar-value check. *)
Definition similarTxs (accountTxs : list Transaction) (tx : Transaction)
  : list Transaction :=
  let windowStart := (fun t => t - 24 * 60 * 60 * 1000)%Z <$> tx_timestamp tx in
  List.filter (fun o =>
                 JS.date_ge (tx_timestamp o) windowStart &&
                 JS.lt (PrimFloat.abs (tx_amount o - tx_amount tx) / tx_amount tx)%float 0.05)
              accountTxs.

(** The entries the loop body pushes for one transaction, in order. *)
Definition suspiciousEntries (accountId : string) (baseline : Baseline)
           (accountTxs : list Transaction) (txCountToday uniqueSendersToday : nat)
           (tx : Transaction) : list SuspiciousTx :=
  let entry k := {| stx_txId := tx_id tx; stx_kind := k; stx_transaction := tx |} in
  (* deviation from baseline (for sender) *)
  (if isOutflow accountId tx then
     let deviation := checkDeviation tx baseline in
     if hasDeviation deviation then [entry (baseline_deviation (deviations deviation))]
     else []
   else [])
  (* frequency spike *)
  ++ (if JS.gt (avgTxFrequency baseline) 0 &&
         JS.gt (JS.ofNat txCountToday) (avgTxFrequency baseline * 3)%float
      then [entry (frequency_spike txCountToday)] else [])
  (* sender count spike for inflows *)
  ++ (if isInflow accountId tx && JS.gt (avgUniqueSenders baseline) 0 &&
         JS.gt (JS.ofNat uniqueSendersToday) (avgUniqueSenders baseline * 2)%float
      then [entry (sender_count_spike uniqueSendersToday)] else [])
  (* repeated similar-value transactions within 24h *)
  ++ (let similar := similarTxs accountTxs tx in
      if (3 <=? length similar)%nat
      then [entry (similar_value_repeat (length similar))] else [])
  (* unusual timing *)
  ++ (match checkUnusualTiming tx accountTxs with
      | Some hour => [entry (unusual_timing hour)]
      | None => []
      end).

Definition findSuspiciousTransactions (now : Z) (accountId : string)
           (transactions : list Transaction) (baseline : Baseline)
  : list SuspiciousTx :=
  let accountTxs := List.filter (involves accountId) transactions in
  let startOfDay := JS.startOfDay now in
  let todaysTxs :=
    List.filter (fun tx => JS.date_ge (tx_timestamp tx) (Some startOfDay)) accountTxs in
  let txCountToday := length todaysTxs in
  let uniqueSendersToday :=
    length (JS.setOf (map tx_sender (List.filter (isInflow accountId) todaysTxs))) in
  flat_map (suspiciousEntries accountId baseline accountTxs txCountToday uniqueSendersToday)
           accountTxs.

Definition calculateScore (suspiciousTxs : list SuspiciousTx) (patterns : list Pattern)
           (networkAnalysis : NetworkAnalysis) : Z :=
  let score := 0%Z in
  let score := (score + Z.of_nat (length suspiciousTxs) * suspiciousTransaction weights)%Z in
  let score := (score + Z.of_nat (length patterns) * confirmedPattern weights)%Z in
  let score := (score + Z.of_nat (na_networkSignals networkAnalysis) * networkSignal weights)%Z in
  let score := if na_isProbableML networkAnalysis then (score + 20)%Z else score in
  Z.min score 100.

Definition getRiskLevel (score : Z) : RiskLevel :=
  if (80 <=? score)%Z then ProbableML
  else if (60 <=? score)%Z then HighRisk
  else if (30 <=? score)%Z then Suspicious
  else Normal.

Definition evaluateAccount (now : Z) (accountId : string) (w : World) : Evaluation :=
  let transactions := Store.getTransactions w in
  let baseline := calculateBaseline now accountId transactions in
  let suspiciousTxs := findSuspiciousTransactions now accountId transactions baseline in
  let patterns := PatternDetector.detectPatterns now accountId transactions in
  let networkAnalysis := NetworkAnalyzer.analyzeAccount w accountId transactions in
  let score := calculateScore suspiciousTxs patterns networkAnalysis in
  let riskLevel := getRiskLevel score in
  {| ev_accountId := accountId;
     ev_score := score;
     ev_riskLevel := riskLevel;
     ev_evidence :=
       {| suspiciousTransactions := length suspiciousTxs;
          confirmedPatterns := length patterns;
          networkSignals := na_networkSignals networkAnalysis;
          isProbableML := na_isProbableML networkAnalysis |};
     ev_details :=
       {| suspiciousTxs := suspiciousTxs;
          patterns := patterns;
          det_networkSignals := na_signals networkAnalysis |};
     ev_baseline := baseline;
     ev_timestamp := now;
     alertGenerated := false;
     alertId := None |}.


Definition updateAccountEvidence (evaluation : Evaluation) (w : World) : World :=
  let data := Store.getData w in
  let record :=
    {| ae_score := ev_score evaluation;
       ae_riskLevel := ev_riskLevel evaluation;
       ae_suspiciousTransactions := suspiciousTransactions (ev_evidence evaluation);
       ae_confirmedPatterns := confirmedPatterns (ev_evidence evaluation);
       ae_networkSignals := networkSignals (ev_evidence evaluation);
       ae_isProbableML := isProbableML (ev_evidence evaluation);
       ae_lastUpdated := ev_timestamp evaluation |} in
  Store.saveData
    (set_accountEvidence (<[ev_accountId evaluation := record]> (accountEvidence data)) data)
    w.

(** The accounts of [evaluateAllAccounts], in the order the [Set] yields them. *)
Definition allAccounts (transactions : list Transaction) : list string :=
  JS.setOf (flat_map (fun tx => [tx_sender tx; tx_receiver tx]) transactions).

Definition evaluateAllAccounts (now : Z) (w : World) : list Evaluation * World :=
  let accounts := allAccounts (Store.getTransactions w) in
  fold_left (fun '(results, w) accountId =>
               let evaluation := evaluateAccount now accountId w in
               (results ++ [evaluation], updateAccountEvidence evaluation w))
            accounts ([], w).

End WithRuntime.
End EvidenceEngine.

(** ** AlertGenerator *)

Module AlertGenerator.
Section WithRuntime.
Context `{Runtime}.

Definition mapRiskToSeverity (riskLevel : RiskLevel) : Severity :=
  match riskLevel with
  | Normal => low
  | Suspicious => medium
  | HighRisk => high
  | ProbableML => critical
  end.

Definition quote : string := String (ascii_of_nat 34) EmptyString.

Definition generateSummary (evaluation : Evaluation) : string :=
  let evidence := ev_evidence evaluation in
  let details := ev_details evaluation in
  let parts :=
    (if (0 <? suspiciousTransactions evidence)%nat
     then [JS.showNat (suspiciousTransactions evidence) +:+ " suspicious transactions"]
     else [])
    ++ (if (0 <? confirmedPatterns evidence)%nat
        then ["patterns detected: " +:+ String.concat ", " (map pattern_type (patterns details))]
        else [])
    ++ (if (0 <? networkSignals evidence)%nat
        then [JS.showNat (networkSignals evidence) +:+ " network signals"]
        else []) in
  "Account " +:+ quote +:+ ev_accountId evaluation +:+ quote +:+ ": "
    +:+ String.concat ", " parts.

Definition generateTimeline (now : Z) (evaluation : Evaluation) : list TimelineEvent :=
  let fromTxs :=
    map (fun stx =>
           {| te_timestamp := tx_timestamp (stx_transaction stx);
              te_type := "suspicious_transaction";
              te_description := "Suspicious transaction: " +:+ suspicious_type (stx_kind stx);
              te_txId := Some (stx_txId stx);
              te_severity := None |})
        (suspiciousTxs (ev_details evaluation)) in
  let fromPatterns :=
    map (fun pattern =>
           {| te_timestamp := Some now;
              te_type := "pattern_detected";
              te_description := "Pattern detected: " +:+ pattern_type pattern;
              te_txId := None;
              te_severity := Some (pattern_severity pattern) |})
        (patterns (ev_details evaluation)) in
  JS.sort (fun a b => JS.date_lt (te_timestamp a) (te_timestamp b))
          (fromTxs ++ fromPatterns).

Definition generateRecommendations (evaluation : Evaluation) : list string :=
  match ev_riskLevel evaluation with
  | ProbableML =>
      [ "IMMEDIATE ACTION REQUIRED: File Suspicious Activity Report (SAR)";
        "Escalate to compliance team for investigation";
        "Consider account freeze pending investigation" ]
  | HighRisk =>
      [ "Enhanced due diligence required";
        "Review account activity with compliance team";
        "Monitor closely for additional suspicious activity" ]
  | Suspicious =>
      [ "Continue monitoring account activity";
        "Document suspicious patterns";
        "Escalate if additional evidence emerges" ]
  | Normal => []
  end.

Definition generateAlert (now : Z) (evaluation : Evaluation) : option Alert :=
  if (ev_score evaluation <? 30)%Z then None
  else
    Some {| al_id := "ALERT-" +:+ JS.showZ now;
            al_accountId := ev_accountId evaluation;
            al_severity := mapRiskToSeverity (ev_riskLevel evaluation);
            al_riskLevel := ev_riskLevel evaluation;
            al_score := ev_score evaluation;
            al_timestamp := now;
            al_status := "open";
            al_summary := generateSummary evaluation;
            al_behaviorSummary :=
              (ev_baseline evaluation, suspiciousTxs (ev_details evaluation));
            al_detectedPatterns := patterns (ev_details evaluation);
            al_timeline := generateTimeline now evaluation;
            al_networkRelationships := det_networkSignals (ev_details evaluation);
            al_evidenceBreakdown :=
              (suspiciousTransactions (ev_evidence evaluation),
               confirmedPatterns (ev_evidence evaluation),
               networkSignals (ev_evidence evaluation));
            al_recommendations := generateRecommendations evaluation |}.

Definition severityUpper (s : Severity) : string :=
  match s with
  | low => "LOW" | medium => "MEDIUM" | high => "HIGH" | critical => "CRITICAL"
  end.

(** [a.accountId === accountId && new Date(a.timestamp) > oneHourAgo] *)
Definition recentFor (now : Z) (accountId : string) (a : Alert) : bool :=
  let oneHourAgo := (now - 60 * 60 * 1000)%Z in
  String.eqb (al_accountId a) accountId && (oneHourAgo <? al_timestamp a)%Z.

Definition createAndSaveAlert (now : Z) (accountId : string) (w : World)
  : option Alert * World :=
  let evaluation := EvidenceEngine.evaluateAccount now accountId w in
  match generateAlert now evaluation with
  | Some alert =>
      let data := Store.getData w in
      let existingAlert := List.find (recentFor now accountId) (alerts data) in
      match existingAlert with
      | None =>
          let w1 := Store.saveData (set_alerts (alerts data ++ [alert]) data) w in
          (Some alert,
           Store.logAudit now "System" "Alert Generated"
             (severityUpper (al_severity alert) +:+ " alert for account " +:+ accountId
                +:+ ": " +:+ al_summary alert)
             w1)
      | Some _ => (Some alert, w)
      end
  | None => (None, w)
  end.

Definition getAllAlerts (w : World) : list Alert := alerts (Store.getData w).

Definition getAlertsBySeverity (severity : Severity) (w : World) : list Alert :=
  List.filter (fun a => bool_decide (al_severity a = severity)) (getAllAlerts w).

End WithRuntime.
End AlertGenerator.

(** ** AMLEngine *)

Module AMLEngine.
Section WithRuntime.
Context `{Runtime}.

Record AccountResult := {
  ar_accountId : string;
  ar_riskLevel : RiskLevel;
  ar_score : Z;
  ar_alertGenerated : bool
}.

Record ProcessingResult := {
  pr_transactionId : string;
  pr_processed : bool;
  pr_accounts : list AccountResult;
  pr_highestRisk : option Evaluation
}.

(** The body of [accounts.forEach] in [processTransaction]. *)
Definition processAccount (now : Z) (accountId : string) (w : World)
  : Evaluation * World :=
  let evaluation := EvidenceEngine.evaluateAccount now accountId w in
  let w1 := EvidenceEngine.updateAccountEvidence evaluation w in
  if (30 <=? ev_score evaluation)%Z then
    match AlertGenerator.createAndSaveAlert now accountId w1 with
    | (Some alert, w2) =>
        ({| ev_accountId := ev_accountId evaluation;
            ev_score := ev_score evaluation;
            ev_riskLevel := ev_riskLevel evaluation;
            ev_evidence := ev_evidence evaluation;
            ev_details := ev_details evaluation;
            ev_baseline := ev_baseline evaluation;
            ev_timestamp := ev_timestamp evaluation;
            alertGenerated := true;
            alertId := Some (al_id alert) |}, w2)
    | (None, w2) => (evaluation, w2)
    end
  else (evaluation, w1).

(** [evaluations.reduce((max, e) => e.score > max.score ? e : max)] *)
Definition highestRisk (evaluations : list Evaluation) : option Evaluation :=
  match evaluations with
  | [] => None
  | e0 :: rest =>
      Some (fold_left (fun max e => if (ev_score max <? ev_score e)%Z then e else max)
                      rest e0)
  end.

Definition processTransaction (now : Z) (transaction : Transaction) (w : World)
  : ProcessingResult * World :=
  (* 1. add the transaction to the store *)
  let w0 := Store.addTransaction now transaction w in
  (* 2. the accounts involved *)
  let accounts := [tx_sender transaction; tx_receiver transaction] in
  (* 3-4. evaluate each account, alert when the threshold is met *)
  let '(evaluations, w') :=
    fold_left (fun '(evaluations, w) accountId =>
                 let '(evaluation, w1) := processAccount now accountId w in
                 (evaluations ++ [evaluation], w1))
              accounts ([], w0) in
  (* 5. the processing summary *)
  ({| pr_transactionId := tx_id transaction;
      pr_processed := true;
      pr_accounts :=
        map (fun e => {| ar_accountId := ev_accountId e;
                         ar_riskLevel := ev_riskLevel e;
                         ar_score := ev_score e;
                         ar_alertGenerated := alertGenerated e |})
            evaluations;
      pr_highestRisk := highestRisk evaluations |}, w').

Record AnalysisResult := {
  totalAccounts : nat;
  highRiskAccounts : nat;
  suspiciousAccounts : nat;
  alertsGenerated : nat
}.

Definition runFullAnalysis (now : Z) (w : World) : AnalysisResult * World :=
  let '(results, w1) := EvidenceEngine.evaluateAllAccounts now w in
  let w2 :=
    fold_left (fun w evaluation =>
                 if (30 <=? ev_score evaluation)%Z
                 then snd (AlertGenerator.createAndSaveAlert now (ev_accountId evaluation) w)
                 else w)
              results w1 in
  ({| totalAccounts := length results;
      highRiskAccounts :=
        length (List.filter (fun r => (60 <=? ev_score r)%Z) results);
      suspiciousAccounts :=
        length (List.filter (fun r => (30 <=? ev_score r)%Z && (ev_score r <? 60)%Z) results);
      alertsGenerated := length (alerts (Store.getData w2)) |}, w2).


(** [evaluateAccount(accountId)] of the engine (on demand): the evaluation,
    the alert attached to it when the threshold is met, and the store. *)
Definition evaluateAccount (now : Z) (accountId : string) (w : World)
  : Evaluation * option Alert * World :=
  let evaluation := EvidenceEngine.evaluateAccount now accountId w in
  let w1 := EvidenceEngine.updateAccountEvidence evaluation w in
  if (30 <=? ev_score evaluation)%Z
  then (evaluation, AlertGenerator.generateAlert now evaluation, w1)
  else (evaluation, None, w1).


End WithRuntime.
End AMLEngine.

(** ** Auth *)

Module Auth.

(** The state of the [Auth] object: [currentUser], and the user kept in
    [sessionStorage]. *)
Record Session := {
  currentUser : option User;
  stored : option User
}.

Inductive Outcome :=
| success (user : option User) (message : string)
| failure (message : string).

Definition login (now : Z) (name pass : string) (s : Session) (w : World)
  : Outcome * Session * World :=
  match List.find (fun u => String.eqb (username u) name && String.eqb (password u) pass)
                  (users (Store.getData w)) with
  | Some user =>
      (success (Some user) "",
       {| currentUser := Some user; stored := Some user |},
       Store.logAudit now (username user) "Login" "User logged in successfully." w)
  | None =>
      (failure "Invalid credentials", s,
       Store.logAudit now "System" "Login Failed" ("Failed login attempt for " +:+ name) w)
  end.

Definition register (now : Z) (name pass userRole : string) (w : World)
  : Outcome * World :=
  match List.find (fun u => String.eqb (username u) name) (users (Store.getData w)) with
  | Some _ => (failure "Username already exists", w)
  | None =>
      let newUser := {| user_id := "u" +:+ JS.showZ now;
                        username := name;
                        role := userRole;
                        password := pass |} in
      (success None "Registration successful", Store.addUser now newUser w)
  end.




End Auth.

(** * Properties *)

(** ** Vocabulary of the specification *)

(** [clamp(x, lo, hi)] *)
Definition clamp (x lo hi : Z) : Z := Z.max lo (Z.min x hi).


(** The severity of each risk level: Normal→low, Suspicious→medium,
    HighRisk→high, ProbableML→critical. *)
Definition severity_of_band (r : RiskLevel) : Severity :=
  match r with
  | Normal => low
  | Suspicious => medium
  | HighRisk => high
  | ProbableML => critical
  end.


(** ** Runs of the engine *)









(** What the similar-value test of the specification counts for [tx]: the
    transactions of the account within the 24 hours before [tx]'s
    timestamp, [tx] included and none after it, whose amount is within 5%
    of [tx]'s. *)
Definition similarWithinDayBefore (accountTxs : list Transaction) (tx : Transaction)
  : list Transaction :=
  let windowStart := (fun t => t - 24 * 60 * 60 * 1000)%Z <$> tx_timestamp tx in
  List.filter (fun o =>
                 JS.date_ge (tx_timestamp o) windowStart &&
                 JS.date_ge (tx_timestamp tx) (tx_timestamp o) &&
                 JS.lt (PrimFloat.abs (tx_amount o - tx_amount tx) / tx_amount tx)%float 0.05)
              accountTxs.

(** An audit entry without its id. *)
Definition logBody (l : AuditLog) : Z * string * string * string :=
  (log_timestamp l, log_user l, log_action l, log_details l).

(** Two documents that differ at most in the ids of their audit entries. *)
Definition same_but_log_ids (d1 d2 : Data) : Prop :=
  users d1 = users d2
  /\ transactions d1 = transactions d2
  /\ alerts d1 = alerts d2
  /\ watchlist d1 = watchlist d2
  /\ accountEvidence d1 = accountEvidence d2
  /\ map logBody (auditLogs d1) = map logBody (auditLogs d2).

(** Two worlds whose stores differ at most in the ids of their audit entries. *)
Definition agree (w1 w2 : World) : Prop := same_but_log_ids (storage w1) (storage w2).

(** Back-to-back [process] calls, each at the instant the clock shows. *)
Definition processAll `{Runtime} (inputs : list (Z * Transaction)) (w : World) : World :=
  fold_left (fun w '(now, transaction) => snd (AMLEngine.processTransaction now transaction w))
            inputs w.

(** ** Fund paths *)

(** The transactions of [path] follow one another from account [a]: the
    first is sent by [a], each next one by the receiver of the one before. *)
Fixpoint chain (a : string) (path : list Transaction) : Prop :=
  match path with
  | [] => True
  | tx :: rest => tx_sender tx = a /\ chain (tx_receiver tx) rest
  end.

(** The account a path from [a] ends in. *)
Definition endOf (a : string) (path : list Transaction) : string :=
  match last path with
  | Some tx => tx_receiver tx
  | None => a
  end.

(** A path of at most [maxDepth] transactions of the list, from [a], that
    uses no transaction id twice and cannot be extended: it has [maxDepth]
    transactions, or every transaction sent by its last account has its id
    on the path already. *)
Definition fundPath (a : string) (transactions : list Transaction) (maxDepth : nat)
           (path : list Transaction) : Prop :=
  (length path <= maxDepth)%nat
  /\ (forall tx, In tx path -> In tx transactions)
  /\ chain a path
  /\ NoDup (map tx_id path)
  /\ (length path = maxDepth
      \/ forall tx, In tx transactions -> tx_sender tx = endOf a path ->
                    In (tx_id tx) (map tx_id path)).

(** An account whose persisted evidence is High Risk or Probable Money
    Laundering. *)
Definition flagged (w : World) (account : string) : Prop :=
  exists e : Evidence,
    accountEvidence (storage w) !! account = Some e
    /\ (ae_riskLevel e = HighRisk \/ ae_riskLevel e = ProbableML).

(** A fund path that comes back to [a] through at least three transactions. *)
Definition circularPath (a : string) (transactions : list Transaction)
           (path : list Transaction) : Prop :=
  fundPath a transactions 5 path /\ endOf a path = a /\ (3 <= length path)%nat.

(** A transaction between [a] and a flagged account, in either direction. *)
Definition flaggedLink (w : World) (a : string) (tx : Transaction) : Prop :=
  (tx_sender tx = a /\ flagged w (tx_receiver tx))
  \/ (tx_receiver tx = a /\ flagged w (tx_sender tx)).

(** The unvisited transactions that leave the end of the current path. *)
Definition outflowsOf (transactions : list Transaction) (lastAccount : string)
           (visited : list string) : list Transaction :=
  List.filter (fun tx => String.eqb (tx_sender tx) lastAccount &&
                         negb (existsb (String.eqb (tx_id tx)) visited))
              transactions.

(** The [type] of a network signal. *)
Definition signal_type (s : Signal) : string :=
  match s with
  | circular_flow _ => "circular_flow"
  | hub_account _ _ _ _ _ => "hub_account"
  | flagged_links _ _ => "flagged_links"
  end.

(** ** Concrete data for the examples *)

(** ** Stored records *)

(** The record that [updateAccountEvidence] keeps of an evaluation. *)
Definition recordOf (e : Evaluation) : Evidence :=
  {| ae_score := ev_score e;
     ae_riskLevel := ev_riskLevel e;
     ae_suspiciousTransactions := suspiciousTransactions (ev_evidence e);
     ae_confirmedPatterns := confirmedPatterns (ev_evidence e);
     ae_networkSignals := networkSignals (ev_evidence e);
     ae_isProbableML := isProbableML (ev_evidence e);
     ae_lastUpdated := ev_timestamp e |}.








(** *** Timelines *)

(** Both events are dated, [a] not after [b]. *)
Definition notLater (a b : TimelineEvent) : Prop :=
  exists x y, te_timestamp a = Some x /\ te_timestamp b = Some y /\ (x <= y)%Z.

(** *** Patterns *)


(** The cycle [c] pairs a payment into [a] with a payment out of [a] made
    after it and less than two hours later. *)
Definition rapidInOut (a : string) (txs : list Transaction) (c : Cycle) : Prop :=
  exists inflow outflow tin tout,
    In inflow txs /\ In outflow txs
    /\ tx_receiver inflow = a /\ tx_sender outflow = a
    /\ inflowId c = tx_id inflow /\ outflowId c = tx_id outflow
    /\ cyc_amount c = tx_amount inflow
    /\ tx_timestamp inflow = Some tin /\ tx_timestamp outflow = Some tout
    /\ (tin < tout < tin + 7200000)%Z.

Module Examples.

(** A host in UTC.  Amounts in the examples are integral, and print as
    their integer. *)
Definition host : Runtime :=
  {| tzOffsetMs := 0;
     numberToString := fun x => match JS.floor x with
                                | Some z => JS.showZ z
                                | None => "NaN"
                                end |}.

Definition sequential : Entropy := {| draws := JS.showNat; position := 0 |}.
Definition constant : Entropy := {| draws := fun _ => "k"; position := 0 |}.

Definition tx (id sender receiver : string) (amount : float) (t : Z) : Transaction :=
  {| tx_id := id; tx_sender := sender; tx_receiver := receiver;
     tx_amount := amount; tx_timestamp := Some t; tx_bankAccount := "" |}.

Definition hour : Z := 3600000.
Definition day : Z := 86400000.

(** 2023-11-14T22:13:20Z *)
Definition t0 : Z := 1700000000000.

Definition fresh : World := Store.init t0 sequential.

(** Scenario 4 of the specification: A→B, B→C, C→A. *)
Definition ring : list (Z * Transaction) :=
  [ ((t0 + 1000)%Z, tx "T1" "A" "B" 1000 (t0 + 1000));
    ((t0 + 2000)%Z, tx "T2" "B" "C" 1000 (t0 + 2000));
    ((t0 + 3000)%Z, tx "T3" "C" "A" 1000 (t0 + 3000)) ].

Definition afterRing : World := @processAll host ring fresh.

(** The store of [fresh] with another supply of random draws. *)
Definition reseeded : World := {| storage := storage fresh; entropy := constant |}.


(** A first transaction dated two days after the clock. *)
Definition postdated : Transaction := tx "F1" "A" "B" 100 (t0 + 2 * day).

(** Account A has sent 10 once; X then sends 100 to A. *)
Definition history : list Transaction := [ tx "H1" "A" "B" 10 (t0 - hour) ].
Definition baselineA : Baseline := BaselineEngine.calculateBaseline t0 "A" history.
Definition foreign : Transaction := tx "X1" "X" "A" 100 t0.

(** Three equal payments of A, ten days apart, newest first. *)
Definition first_payment : Transaction := tx "R1" "A" "B" 100 t0.
Definition payments : list Transaction :=
  [ tx "R3" "A" "B" 100 (t0 + 20 * day);
    tx "R2" "A" "B" 100 (t0 + 10 * day);
    first_payment ].


(** Scenario 2 of the specification: L receives 1000 three times and sends
    it on within the hour each time. *)
Definition layered : list Transaction :=
  [ tx "L1" "X" "L" 1000 t0;
    tx "L2" "L" "Y" 1000 (t0 + hour);
    tx "L3" "X" "L" 1000 (t0 + 3 * hour);
    tx "L4" "L" "Y" 1000 (t0 + 4 * hour);
    tx "L5" "X" "L" 1000 (t0 + 6 * hour);
    tx "L6" "L" "Y" 1000 (t0 + 7 * hour) ].


(** F paid G once ten days ago and four times today, newest first. *)
Definition long_ago : Transaction := tx "F1" "F" "G" 100 (t0 - 10 * day).
Definition busy : list Transaction :=
  [ tx "F5" "F" "G" 100 (t0 - 1000);
    tx "F4" "F" "G" 100 (t0 - 2000);
    tx "F3" "F" "G" 100 (t0 - 3000);
    tx "F2" "F" "G" 100 (t0 - 4000);
    long_ago ].

(** The store after the three payments of A were processed, each at its
    own instant. *)
Definition paid : World :=
  @processAll host
    [ (t0, first_payment);
      ((t0 + 10 * day)%Z, tx "R2" "A" "B" 100 (t0 + 10 * day));
      ((t0 + 20 * day)%Z, tx "R3" "A" "B" 100 (t0 + 20 * day)) ]
    fresh.

End Examples.

(** ** What each operation reads and writes *)

Section Frame.
Context `{Runtime}.

Lemma logAudit_storage now user action details w :
  storage (Store.logAudit now user action details w) =
  set_auditLogs
    ({| log_id := JS.toStringRadix 36 now +:+ draws (entropy w) (position (entropy w));
        log_timestamp := now; log_user := user;
        log_action := action; log_details := details |}
       :: auditLogs (storage w))
    (storage w).
Proof. reflexivity. Qed.

Lemma addTransaction_transactions now tx w :
  transactions (storage (Store.addTransaction now tx w)) = tx :: transactions (storage w).
Proof. reflexivity. Qed.

Lemma addTransaction_alerts now tx w :
  alerts (storage (Store.addTransaction now tx w)) = alerts (storage w).
Proof. reflexivity. Qed.

Lemma addTransaction_accountEvidence now tx w :
  accountEvidence (storage (Store.addTransaction now tx w)) = accountEvidence (storage w).
Proof. reflexivity. Qed.

Lemma updateAccountEvidence_transactions e w :
  transactions (storage (EvidenceEngine.updateAccountEvidence e w)) = transactions (storage w).
Proof. reflexivity. Qed.

Lemma updateAccountEvidence_alerts e w :
  alerts (storage (EvidenceEngine.updateAccountEvidence e w)) = alerts (storage w).
Proof. reflexivity. Qed.

Lemma updateAccountEvidence_auditLogs e w :
  auditLogs (storage (EvidenceEngine.updateAccountEvidence e w)) = auditLogs (storage w).
Proof. reflexivity. Qed.

(** An evaluation reads the transactions and the persisted evidence, and
    nothing else of the store. *)
Lemma evaluateAccount_ext now accountId w1 w2 :
  transactions (storage w1) = transactions (storage w2) ->
  accountEvidence (storage w1) = accountEvidence (storage w2) ->
  EvidenceEngine.evaluateAccount now accountId w1 =
  EvidenceEngine.evaluateAccount now accountId w2.
Proof.
  intros Htx Hev.
  unfold EvidenceEngine.evaluateAccount, NetworkAnalyzer.analyzeAccount,
    NetworkAnalyzer.detectFlaggedLinks, Store.getTransactions, Store.getData.
  rewrite Htx, Hev. reflexivity.
Qed.

(** The score of an evaluation lies between 0 and 100. *)
Lemma calculateScore_range sus pats net :
  (0 <= EvidenceEngine.calculateScore sus pats net <= 100)%Z.
Proof.
  unfold EvidenceEngine.calculateScore, EvidenceEngine.weights; simpl.
  destruct (na_isProbableML net); lia.
Qed.


End Frame.

(** ** Scoring, risk bands and alert gating *)

Section Scoring.
Context `{Runtime}.

(** C6: the score of [evaluate(a)] is
    clamp(10·|suspicious_txs| + 20·|patterns| + 30·|net.signals|
          + (20 if net.is_probable_ml else 0), 0, 100),
    where net.is_probable_ml means at least two network signals; it is
    never above 100 and never below 0. *)
Theorem C6_score_is_clamped_weighted_sum (now : Z) (a : string) (w : World) :
  let e := EvidenceEngine.evaluateAccount now a w in
  let d := ev_details e in
  ev_score e =
    clamp (10 * Z.of_nat (length (suspiciousTxs d))
           + 20 * Z.of_nat (length (patterns d))
           + 30 * Z.of_nat (length (det_networkSignals d))
           + (if isProbableML (ev_evidence e) then 20 else 0)) 0 100
  /\ isProbableML (ev_evidence e) = (2 <=? length (det_networkSignals d))%nat
  /\ (0 <= ev_score e <= 100)%Z.
Proof.
  cbn zeta. split; [|split].
  - unfold EvidenceEngine.evaluateAccount; cbn [ev_score ev_details ev_evidence
      suspiciousTxs patterns det_networkSignals isProbableML].
    unfold EvidenceEngine.calculateScore, EvidenceEngine.weights, clamp,
      NetworkAnalyzer.analyzeAccount;
      cbn [na_networkSignals na_isProbableML na_signals
           EvidenceEngine.suspiciousTransaction EvidenceEngine.confirmedPattern
           EvidenceEngine.networkSignal].
    match goal with |- context [if ?b then _ else _] => destruct b end; lia.
  - reflexivity.
  - apply calculateScore_range.
Qed.


(** C4: [Alert.generate(E)] returns null exactly when E.score < 30; an alert
    it returns has score ≥ 30 and the severity that the fixed mapping
    (Normal→low, Suspicious→medium, HighRisk→high, ProbableML→critical)
    gives to its risk level. *)
Theorem C4_alert_gate_and_severity (now : Z) (E : Evaluation) :
  (AlertGenerator.generateAlert now E = None <-> (ev_score E < 30)%Z)
  /\ (forall A : Alert,
        AlertGenerator.generateAlert now E = Some A ->
        (30 <= al_score A)%Z
        /\ al_riskLevel A = ev_riskLevel E
        /\ al_severity A = severity_of_band (al_riskLevel A)).
Proof.
  unfold AlertGenerator.generateAlert.
  destruct (ev_score E <? 30)%Z eqn:Hlt.
  - apply Z.ltb_lt in Hlt. split; [tauto|]. intros A HA; discriminate.
  - apply Z.ltb_ge in Hlt. split.
    + split; [discriminate | lia].
    + intros A HA. injection HA as <-.
      cbn [al_score al_riskLevel al_severity].
      split; [lia|]. split; [reflexivity|].
      destruct (ev_riskLevel E); reflexivity.
Qed.

End Scoring.

(** ** Alert creation and the one-hour window *)

Section Alerts.
Context `{Runtime}.

Import AlertGenerator.

Lemma find_snoc {A} (p : A -> bool) (l : list A) (x : A) :
  List.find p (l ++ [x]) =
  match List.find p l with
  | Some y => Some y
  | None => if p x then Some x else None
  end.
Proof.
  induction l as [|y l IH]; simpl; [reflexivity|].
  destruct (p y); [reflexivity | exact IH].
Qed.


Lemma generateAlert_fields now e alert :
  generateAlert now e = Some alert ->
  al_accountId alert = ev_accountId e /\ al_timestamp alert = now
  /\ (30 <= ev_score e)%Z.
Proof.
  unfold generateAlert. destruct (ev_score e <? 30)%Z eqn:Hlt; [discriminate|].
  intros [= <-]. apply Z.ltb_ge in Hlt. auto.
Qed.

Lemma generateAlert_some now e :
  (30 <= ev_score e)%Z -> exists alert, generateAlert now e = Some alert.
Proof.
  intros Hs. unfold generateAlert.
  destruct (ev_score e <? 30)%Z eqn:Hlt; [apply Z.ltb_lt in Hlt; lia | eauto].
Qed.

(** The alert made at [now] for [a] is inside the window at any instant
    less than an hour later. *)
Lemma recentFor_new now now' a alert :
  al_accountId alert = a -> al_timestamp alert = now ->
  (now' < now + 60 * 60 * 1000)%Z ->
  recentFor now' a alert = true.
Proof.
  intros Ha Ht Hlt. unfold recentFor. rewrite Ha, Ht, String.eqb_refl. simpl.
  apply Z.ltb_lt. lia.
Qed.



(** What [createAndSaveAlert] returns and writes. *)
Lemma createAndSaveAlert_fst now a w :
  fst (createAndSaveAlert now a w) =
  generateAlert now (EvidenceEngine.evaluateAccount now a w).
Proof.
  unfold createAndSaveAlert.
  destruct (generateAlert now _) as [alert|]; [|reflexivity].
  destruct (List.find _ _); reflexivity.
Qed.

Lemma createAndSaveAlert_suppressed now a w alert old :
  generateAlert now (EvidenceEngine.evaluateAccount now a w) = Some alert ->
  List.find (recentFor now a) (alerts (storage w)) = Some old ->
  snd (createAndSaveAlert now a w) = w.
Proof.
  intros Hg Hf. unfold createAndSaveAlert, Store.getData. rewrite Hg, Hf. reflexivity.
Qed.

Lemma createAndSaveAlert_none now a w :
  generateAlert now (EvidenceEngine.evaluateAccount now a w) = None ->
  snd (createAndSaveAlert now a w) = w.
Proof.
  intros Hg. unfold createAndSaveAlert. rewrite Hg. reflexivity.
Qed.

Lemma createAndSaveAlert_persisted now a w alert :
  generateAlert now (EvidenceEngine.evaluateAccount now a w) = Some alert ->
  List.find (recentFor now a) (alerts (storage w)) = None ->
  storage (snd (createAndSaveAlert now a w)) =
  set_auditLogs
    ({| log_id := JS.toStringRadix 36 now +:+ draws (entropy w) (position (entropy w));
        log_timestamp := now; log_user := "System"; log_action := "Alert Generated";
        log_details := severityUpper (al_severity alert) +:+ " alert for account " +:+ a
                         +:+ ": " +:+ al_summary alert |}
       :: auditLogs (storage w))
    (set_alerts (alerts (storage w) ++ [alert]) (storage w)).
Proof.
  intros Hg Hf. unfold createAndSaveAlert, Store.getData. rewrite Hg, Hf. reflexivity.
Qed.

(** The three cases of [createAndSaveAlert], on the alerts. *)
Lemma createAndSaveAlert_alerts now a w :
  alerts (storage (snd (createAndSaveAlert now a w))) = alerts (storage w)
  \/ exists alert,
       generateAlert now (EvidenceEngine.evaluateAccount now a w) = Some alert
       /\ List.find (recentFor now a) (alerts (storage w)) = None
       /\ alerts (storage (snd (createAndSaveAlert now a w))) = alerts (storage w) ++ [alert].
Proof.
  destruct (generateAlert now (EvidenceEngine.evaluateAccount now a w)) as [alert|] eqn:Hg.
  - destruct (List.find (recentFor now a) (alerts (storage w))) as [old|] eqn:Hf.
    + left. erewrite createAndSaveAlert_suppressed; eauto.
    + right. exists alert. split; [reflexivity|]. split; [reflexivity|].
      rewrite (createAndSaveAlert_persisted _ _ _ _ Hg Hf). reflexivity.
  - left. rewrite createAndSaveAlert_none; auto.
Qed.

Lemma createAndSaveAlert_transactions now a w :
  transactions (storage (snd (createAndSaveAlert now a w))) = transactions (storage w).
Proof.
  unfold createAndSaveAlert.
  destruct (generateAlert now _) as [alert|]; [|reflexivity].
  destruct (List.find _ _); reflexivity.
Qed.

Lemma createAndSaveAlert_accountEvidence now a w :
  accountEvidence (storage (snd (createAndSaveAlert now a w))) = accountEvidence (storage w).
Proof.
  unfold createAndSaveAlert.
  destruct (generateAlert now _) as [alert|]; [|reflexivity].
  destruct (List.find _ _); reflexivity.
Qed.

(** At one instant, a second [createAndSaveAlert] for the same account
    writes nothing. *)
Lemma createAndSaveAlert_idempotent now a w :
  snd (createAndSaveAlert now a (snd (createAndSaveAlert now a w)))
  = snd (createAndSaveAlert now a w).
Proof.
  set (w1 := snd (createAndSaveAlert now a w)).
  assert (He : EvidenceEngine.evaluateAccount now a w1 = EvidenceEngine.evaluateAccount now a w).
  { apply evaluateAccount_ext; subst w1;
      [apply createAndSaveAlert_transactions | apply createAndSaveAlert_accountEvidence]. }
  destruct (generateAlert now (EvidenceEngine.evaluateAccount now a w)) as [alert|] eqn:Hg.
  - assert (Hf1 : exists old, List.find (recentFor now a) (alerts (storage w1)) = Some old).
    { destruct (List.find (recentFor now a) (alerts (storage w))) as [old|] eqn:Hf.
      - exists old. subst w1. erewrite createAndSaveAlert_suppressed; eauto.
      - exists alert. subst w1.
        rewrite (createAndSaveAlert_persisted _ _ _ _ Hg Hf).
        cbn [alerts set_auditLogs set_alerts]. rewrite find_snoc, Hf.
        destruct (generateAlert_fields _ _ _ Hg) as (Ha & Ht & _).
        rewrite (recentFor_new now now a alert); [reflexivity | exact Ha | exact Ht | lia]. }
    destruct Hf1 as [old Hf1].
    eapply createAndSaveAlert_suppressed; [rewrite He; exact Hg | exact Hf1].
  - apply createAndSaveAlert_none. rewrite He. exact Hg.
Qed.

(** C10: when the evaluation of [a] scores at least 30, [create_and_save(a)]
    returns the freshly generated alert whether or not the one-hour
    duplicate check suppresses the write: a suppressed call leaves the
    store and the audit log as they were and still returns the alert; a
    second call at the same instant returns the same alert as the first
    while writing nothing. *)
Theorem C10_suppressed_duplicate_is_still_returned (now : Z) (a : string) (w : World) :
  (30 <= ev_score (EvidenceEngine.evaluateAccount now a w))%Z ->
  exists alert : Alert,
    generateAlert now (EvidenceEngine.evaluateAccount now a w) = Some alert
    /\ fst (createAndSaveAlert now a w) = Some alert
    /\ (forall old, List.find (recentFor now a) (alerts (storage w)) = Some old ->
          snd (createAndSaveAlert now a w) = w)
    /\ (List.find (recentFor now a) (alerts (storage w)) = None ->
          alerts (storage (snd (createAndSaveAlert now a w))) = alerts (storage w) ++ [alert]
          /\ length (auditLogs (storage (snd (createAndSaveAlert now a w))))
             = S (length (auditLogs (storage w))))
    /\ (let w1 := snd (createAndSaveAlert now a w) in
        fst (createAndSaveAlert now a w1) = Some alert
        /\ snd (createAndSaveAlert now a w1) = w1).
Proof.
  intros Hs.
  destruct (generateAlert_some now _ Hs) as [alert Hg].
  exists alert. split; [exact Hg|].
  split; [rewrite createAndSaveAlert_fst; exact Hg|].
  split; [intros old Hf; eapply createAndSaveAlert_suppressed; eauto|].
  split.
  { intros Hf. rewrite (createAndSaveAlert_persisted _ _ _ _ Hg Hf). split; reflexivity. }
  cbn zeta. split.
  - rewrite createAndSaveAlert_fst.
    rewrite (evaluateAccount_ext now a (snd (createAndSaveAlert now a w)) w);
      [exact Hg | apply createAndSaveAlert_transactions
       | apply createAndSaveAlert_accountEvidence].
  - apply createAndSaveAlert_idempotent.
Qed.

End Alerts.

(** ** The deduplication window along runs of the engine *)

Section Window.
Context `{Runtime}.

Import AlertGenerator.





(** The store after the loop body of [processTransaction]. *)
Lemma processAccount_snd now a w :
  snd (AMLEngine.processAccount now a w) =
  let e := EvidenceEngine.evaluateAccount now a w in
  let w1 := EvidenceEngine.updateAccountEvidence e w in
  if (30 <=? ev_score e)%Z then snd (createAndSaveAlert now a w1) else w1.
Proof.
  unfold AMLEngine.processAccount. cbn zeta.
  destruct (30 <=? _)%Z; [|reflexivity].
  destruct (createAndSaveAlert now a _) as [[alert|] w2]; reflexivity.
Qed.

Lemma processTransaction_snd now tx w :
  snd (AMLEngine.processTransaction now tx w) =
  snd (AMLEngine.processAccount now (tx_receiver tx)
         (snd (AMLEngine.processAccount now (tx_sender tx)
                 (Store.addTransaction now tx w)))).
Proof.
  unfold AMLEngine.processTransaction. cbn [fold_left].
  destruct (AMLEngine.processAccount now (tx_sender tx) _) as [e1 w1]. cbn [snd].
  destruct (AMLEngine.processAccount now (tx_receiver tx) w1) as [e2 w2]. reflexivity.
Qed.


Lemma evaluateAll_fold_alerts now accounts results w :
  alerts (storage (snd (fold_left
    (fun '(results, w) accountId =>
       let evaluation := EvidenceEngine.evaluateAccount now accountId w in
       (results ++ [evaluation], EvidenceEngine.updateAccountEvidence evaluation w))
    accounts (results, w)))) = alerts (storage w).
Proof.
  revert results w.
  induction accounts as [|a accounts IH]; intros results w; [reflexivity|].
  cbn [fold_left]. rewrite IH. reflexivity.
Qed.

Lemma evaluateAllAccounts_alerts now w :
  alerts (storage (snd (EvidenceEngine.evaluateAllAccounts now w))) = alerts (storage w).
Proof. apply evaluateAll_fold_alerts. Qed.





End Window.

(** ** The pipeline: what [process] writes, and determinism *)

Section Pipeline.
Context `{Runtime}.

Import AlertGenerator.






(** *** Two runs over the same inputs *)

Lemma agree_refl_storage w1 w2 : storage w1 = storage w2 -> agree w1 w2.
Proof. unfold agree, same_but_log_ids. intros ->. repeat split. Qed.

Lemma logAudit_agree now user action details w1 w2 :
  agree w1 w2 ->
  agree (Store.logAudit now user action details w1)
        (Store.logAudit now user action details w2).
Proof.
  unfold agree, same_but_log_ids. rewrite !logAudit_storage.
  cbn [users transactions alerts watchlist accountEvidence auditLogs set_auditLogs map logBody
       log_timestamp log_user log_action log_details].
  intros (Hu & Ht & Ha & Hw & He & Hl). repeat split; try assumption.
  unfold logBody at 1 3. cbn [log_timestamp log_user log_action log_details].
  f_equal. exact Hl.
Qed.

Lemma addTransaction_agree now tx w1 w2 :
  agree w1 w2 -> agree (Store.addTransaction now tx w1) (Store.addTransaction now tx w2).
Proof.
  intros Hag. unfold Store.addTransaction. apply logAudit_agree.
  unfold agree, same_but_log_ids, Store.saveData, Store.getData in *.
  cbn [storage users transactions alerts watchlist accountEvidence auditLogs set_transactions].
  destruct Hag as (Hu & Ht & Ha & Hw & He & Hl). rewrite Ht. repeat split; assumption.
Qed.

Lemma evaluateAccount_agree now a w1 w2 :
  agree w1 w2 ->
  EvidenceEngine.evaluateAccount now a w1 = EvidenceEngine.evaluateAccount now a w2.
Proof.
  intros (Hu & Ht & Ha & Hw & He & Hl). apply evaluateAccount_ext; assumption.
Qed.

Lemma updateAccountEvidence_agree e w1 w2 :
  agree w1 w2 ->
  agree (EvidenceEngine.updateAccountEvidence e w1) (EvidenceEngine.updateAccountEvidence e w2).
Proof.
  unfold agree, same_but_log_ids, EvidenceEngine.updateAccountEvidence,
    Store.saveData, Store.getData.
  cbn [storage users transactions alerts watchlist accountEvidence auditLogs set_accountEvidence].
  intros (Hu & Ht & Ha & Hw & He & Hl). rewrite He. repeat split; assumption.
Qed.

Lemma createAndSaveAlert_agree now a w1 w2 :
  agree w1 w2 ->
  fst (createAndSaveAlert now a w1) = fst (createAndSaveAlert now a w2)
  /\ agree (snd (createAndSaveAlert now a w1)) (snd (createAndSaveAlert now a w2)).
Proof.
  intros Hag. pose proof (evaluateAccount_agree now a _ _ Hag) as He.
  split; [rewrite !createAndSaveAlert_fst, He; reflexivity|].
  pose proof Hag as (Hu & Ht & Ha & Hw & Hev & Hl).
  destruct (generateAlert now (EvidenceEngine.evaluateAccount now a w1)) as [alert|] eqn:Hg1.
  - assert (Hg2 := Hg1). rewrite He in Hg2.
    destruct (List.find (recentFor now a) (alerts (storage w1))) as [old|] eqn:Hf1.
    + assert (Hf2 := Hf1). rewrite Ha in Hf2.
      rewrite (createAndSaveAlert_suppressed _ _ _ _ _ Hg1 Hf1),
              (createAndSaveAlert_suppressed _ _ _ _ _ Hg2 Hf2). exact Hag.
    + assert (Hf2 := Hf1). rewrite Ha in Hf2.
      unfold agree.
      rewrite (createAndSaveAlert_persisted _ _ _ _ Hg1 Hf1),
              (createAndSaveAlert_persisted _ _ _ _ Hg2 Hf2).
      unfold same_but_log_ids.
      cbn [users transactions alerts watchlist accountEvidence auditLogs
           set_auditLogs set_alerts map].
      rewrite Ha. repeat split; try assumption.
      unfold logBody at 1 3. cbn [log_timestamp log_user log_action log_details].
      f_equal. exact Hl.
  - assert (Hg2 := Hg1). rewrite He in Hg2.
    rewrite (createAndSaveAlert_none _ _ _ Hg1), (createAndSaveAlert_none _ _ _ Hg2).
    exact Hag.
Qed.

Lemma processAccount_agree now a w1 w2 :
  agree w1 w2 ->
  agree (snd (AMLEngine.processAccount now a w1)) (snd (AMLEngine.processAccount now a w2)).
Proof.
  intros Hag. rewrite !processAccount_snd. cbn zeta.
  rewrite (evaluateAccount_agree now a _ _ Hag).
  destruct (30 <=? _)%Z.
  - apply createAndSaveAlert_agree, updateAccountEvidence_agree, Hag.
  - apply updateAccountEvidence_agree, Hag.
Qed.

Lemma processTransaction_agree now tx w1 w2 :
  agree w1 w2 ->
  agree (snd (AMLEngine.processTransaction now tx w1))
        (snd (AMLEngine.processTransaction now tx w2)).
Proof.
  intros Hag. rewrite !processTransaction_snd.
  apply processAccount_agree, processAccount_agree, addTransaction_agree, Hag.
Qed.

Lemma processAll_agree inputs w1 w2 :
  agree w1 w2 -> agree (processAll inputs w1) (processAll inputs w2).
Proof.
  unfold processAll. revert w1 w2.
  induction inputs as [|[now tx] inputs IH]; intros w1 w2 Hag; [exact Hag|].
  cbn [fold_left]. apply IH, processTransaction_agree, Hag.
Qed.

(** C1, as the code has it: two runs that start from equal Store state and
    process equal transaction sequences at the same clock readings end
    with the same transactions, account evidence and alerts, and with
    audit logs that agree entry by entry in timestamp, user, action and
    details; the audit ids end in a [Math.random()] draw, and the whole
    Store states are equal when the draws are. *)
Theorem C1_runs_agree_up_to_audit_ids
        (inputs : list (Z * Transaction)) (w1 w2 : World) :
  storage w1 = storage w2 ->
  let d1 := storage (processAll inputs w1) in
  let d2 := storage (processAll inputs w2) in
  transactions d1 = transactions d2
  /\ accountEvidence d1 = accountEvidence d2
  /\ alerts d1 = alerts d2
  /\ map logBody (auditLogs d1) = map logBody (auditLogs d2)
  /\ (entropy w1 = entropy w2 -> d1 = d2).
Proof.
  intros Hst. cbn zeta.
  destruct (processAll_agree inputs w1 w2 (agree_refl_storage _ _ Hst))
    as (Hu & Ht & Ha & Hw & He & Hl).
  repeat split; try assumption.
  intros Hen. destruct w1, w2; cbn in Hst, Hen; subst; reflexivity.
Qed.

End Pipeline.

(** ** Deviation from the baseline *)

Section Deviation.
Context `{Runtime}.

Import BaselineEngine.

Lemma hasDeviation_length tx b :
  hasDeviation (checkDeviation tx b) = (0 <? length (deviations (checkDeviation tx b)))%nat.
Proof. reflexivity. Qed.

(** Every [baseline_deviation] entry of [findSuspiciousTransactions] is for
    a transaction sent by the account, and carries what [checkDeviation]
    reported for it. *)
Lemma suspiciousEntries_baseline_deviation a b accountTxs n m tx stx ds :
  In stx (EvidenceEngine.suspiciousEntries a b accountTxs n m tx) ->
  stx_kind stx = baseline_deviation ds ->
  stx_transaction stx = tx /\ tx_sender tx = a
  /\ ds = deviations (checkDeviation tx b) /\ ds <> [].
Proof.
  unfold EvidenceEngine.suspiciousEntries. intros Hin Hk.
  repeat (apply in_app_or in Hin as [Hin|Hin]).
  - destruct (isOutflow a tx) eqn:Hout; [|destruct Hin].
    destruct (hasDeviation (checkDeviation tx b)) eqn:Hd; [|destruct Hin].
    destruct Hin as [<-|[]]. cbn [stx_kind] in Hk. injection Hk as <-.
    split; [reflexivity|]. split; [apply String.eqb_eq, Hout|]. split; [reflexivity|].
    intros Hnil. change (deviations (checkDeviation tx b) = []) in Hnil.
    rewrite hasDeviation_length, Hnil in Hd. discriminate.
  - destruct (_ && _); [destruct Hin as [<-|[]]; discriminate | destruct Hin].
  - destruct (_ && _); [destruct Hin as [<-|[]]; discriminate | destruct Hin].
  - cbn zeta in Hin.
    destruct (3 <=? _)%nat; [destruct Hin as [<-|[]]; discriminate | destruct Hin].
  - destruct (EvidenceEngine.checkUnusualTiming tx accountTxs);
      [destruct Hin as [<-|[]]; discriminate | destruct Hin].
Qed.

(** C8, as the code has it: [check_deviation(tx, b)] reports an
    amount_deviation exactly when tx.sender is non-empty,
    b.avg_daily_outflow > 0 and tx.amount / b.avg_daily_outflow > 3, with
    severity high when the ratio exceeds 5 and medium otherwise, and a
    first_transaction only when tx.sender is non-empty, b.avg_daily_outflow
    is not above 0 and tx.amount > 0; it never compares tx.sender with the
    account of b.  That the sender is the account is checked by its caller:
    [find_suspicious(a, ..)] records a baseline_deviation entry only for a
    transaction with sender = a. *)
Theorem C8_deviation_tests_sender_only_for_presence (tx : Transaction) (b : Baseline) :
  let ratio := (tx_amount tx / avgDailyOutflow b)%float in
  let devs := deviations (checkDeviation tx b) in
  (forall d : Deviation,
      In d devs -> dev_type d = amount_deviation ->
      tx_sender tx <> ""
      /\ JS.gt (avgDailyOutflow b) 0 = true
      /\ JS.gt ratio 3 = true
      /\ dev_severity d = (if JS.gt ratio 5 then high else medium))
  /\ (tx_sender tx <> "" ->
      JS.gt (avgDailyOutflow b) 0 = true ->
      JS.gt ratio 3 = true ->
      exists d : Deviation, In d devs /\ dev_type d = amount_deviation)
  /\ (forall d : Deviation,
        In d devs -> dev_type d = first_transaction ->
        tx_sender tx <> ""
        /\ JS.gt (avgDailyOutflow b) 0 = false
        /\ JS.gt (tx_amount tx) 0 = true)
  /\ (forall (now : Z) (a : string) (txs : list Transaction)
             (stx : SuspiciousTx) (ds : list Deviation),
        In stx (EvidenceEngine.findSuspiciousTransactions now a txs b) ->
        stx_kind stx = baseline_deviation ds ->
        tx_sender (stx_transaction stx) = a
        /\ ds = deviations (checkDeviation (stx_transaction stx) b)).
Proof.
  cbn zeta. unfold checkDeviation. cbn [deviations].
  set (ratio := (tx_amount tx / avgDailyOutflow b)%float).
  set (range := if JS.gt (snd (typicalAmountRange b)) 0 && _ then _ else _).
  assert (Hrange : forall d, In d range -> dev_type d = range_deviation).
  { intros d Hd. subst range.
    destruct (_ && _); [destruct Hd as [<-|[]]; reflexivity | destruct Hd]. }
  destruct (String.eqb_spec (tx_sender tx) "") as [Hs|Hs]; cbn [negb].
  - (* no sender *)
    split; [|split; [|split]].
    + intros d Hd Ht. apply Hrange in Hd. congruence.
    + intros Hne. congruence.
    + intros d Hd Ht. apply Hrange in Hd. congruence.
    + intros now a txs stx ds Hin Hk.
      apply in_flat_map in Hin as (tx' & _ & Hin).
      destruct (suspiciousEntries_baseline_deviation _ _ _ _ _ _ _ _ Hin Hk)
        as (-> & Ha & Hd & _). auto.
  - split; [|split; [|split]].
    + intros d Hd Ht. apply in_app_or in Hd as [Hd|Hd];
        [|apply Hrange in Hd; congruence].
      destruct (JS.gt (avgDailyOutflow b) 0) eqn:Hpos.
      * destruct (JS.gt ratio 3) eqn:H3; [|destruct Hd].
        destruct Hd as [<-|[]]. cbn. auto.
      * destruct (JS.gt (tx_amount tx) 0); [|destruct Hd].
        destruct Hd as [<-|[]]. discriminate.
    + intros _ Hpos H3. rewrite Hpos, H3. eexists. split; [left; reflexivity | reflexivity].
    + intros d Hd Ht. apply in_app_or in Hd as [Hd|Hd];
        [|apply Hrange in Hd; congruence].
      destruct (JS.gt (avgDailyOutflow b) 0) eqn:Hpos.
      * destruct (JS.gt ratio 3); [|destruct Hd].
        destruct Hd as [<-|[]]. discriminate.
      * destruct (JS.gt (tx_amount tx) 0) eqn:Hamt; [|destruct Hd]. auto.
    + intros now a txs stx ds Hin Hk.
      apply in_flat_map in Hin as (tx' & _ & Hin).
      destruct (suspiciousEntries_baseline_deviation _ _ _ _ _ _ _ _ Hin Hk)
        as (-> & Ha & Hd & _). auto.
Qed.

End Deviation.

(** ** Account age *)

Section AccountAge.
Import BaselineEngine.

(** A first transaction at or before the clock gives an age of at least
    one day; so does one whose timestamp does not parse. *)
Lemma ageInDays_past now t : (t <= now)%Z -> (1 <= ageInDays now (Some t))%Z.
Proof.
  intros Hle. unfold ageInDays.
  assert (0 <= (now - t) `div` JS.msPerDay)%Z
    by (apply Z.div_pos; [lia | reflexivity]).
  destruct (Z.eqb_spec ((now - t) `div` JS.msPerDay) 0); lia.
Qed.

Lemma ageInDays_invalid now : ageInDays now None = 1%Z.
Proof. reflexivity. Qed.

(** A first transaction after the clock gives a negative age: the
    fallback [|| 1] replaces 0 and NaN only. *)
Lemma ageInDays_future now t : (now < t)%Z -> (ageInDays now (Some t) < 0)%Z.
Proof.
  intros Hlt. unfold ageInDays.
  assert ((now - t) `div` JS.msPerDay < 0)%Z
    by (apply Z.div_lt_upper_bound; [reflexivity | lia]).
  destruct (Z.eqb_spec ((now - t) `div` JS.msPerDay) 0); lia.
Qed.

(** C7, at the failing input: the only transaction of account A is dated
    two days after the clock; [calculateBaseline] returns an account age of
    -2 days, which is not ≥ 1 (and an average daily outflow of -50). *)
Theorem C7_postdated_first_transaction_gives_negative_age :
  let b := calculateBaseline Examples.t0 "A" [Examples.postdated] in
  involves "A" Examples.postdated = true
  /\ accountAge b = (-2)%Z
  /\ ~ (1 <= accountAge b)%Z
  /\ avgDailyOutflow b = (-50)%float.
Proof.
  cbn zeta. split; [reflexivity|]. split; [reflexivity|].
  split; [vm_compute; intros Hle; apply Hle; reflexivity | reflexivity].
Qed.

End AccountAge.

(** ** Closed instances *)

Section Instances.
Import Examples.

(** C9, at the failing input: A made three payments of 100, ten days
    apart.  Within the 24 hours before the first one lies that payment
    alone, yet [findSuspiciousTransactions] emits a similar_value_repeat
    entry for it, counting the two payments made 10 and 20 days later:
    the window of the code has no upper end. *)
Theorem C9_similar_value_window_has_no_upper_end :
  let now := (t0 + 21 * day)%Z in
  let b := BaselineEngine.calculateBaseline now "A" payments in
  let accountTxs := List.filter (BaselineEngine.involves "A") payments in
  map tx_id (similarWithinDayBefore accountTxs first_payment) = ["R1"]
  /\ map tx_id (EvidenceEngine.similarTxs accountTxs first_payment) = ["R3"; "R2"; "R1"]
  /\ In {| stx_txId := "R1";
           stx_kind := similar_value_repeat 3;
           stx_transaction := first_payment |}
        (@EvidenceEngine.findSuspiciousTransactions host now "A" payments b).
Proof.
  cbn zeta. split; [reflexivity|]. split; [reflexivity|].
  vm_compute. do 3 right. left. reflexivity.
Qed.

(** C1 fails as stated: two runs from the same Store state that process
    the same transaction at the same instant, with different
    [Math.random()] draws, end in different Store states. *)
Lemma C1_counterexample :
  ~ (forall (rt : Runtime) (inputs : list (Z * Transaction)) (w1 w2 : World),
        storage w1 = storage w2 ->
        storage (@processAll rt inputs w1) = storage (@processAll rt inputs w2)).
Proof.
  intros Hdet.
  specialize (Hdet host [(t0, tx "T1" "A" "B" 1000 t0)] fresh reseeded eq_refl).
  apply (f_equal (fun d => map log_id (auditLogs d))) in Hdet.
  vm_compute in Hdet. discriminate Hdet.
Qed.

(** The runs of scenario 4 from one store, under two supplies of draws. *)
Lemma C1_witness :
  storage fresh = storage reseeded
  /\ alerts (storage (@processAll host ring fresh))
     = alerts (storage (@processAll host ring reseeded))
  /\ map logBody (auditLogs (storage (@processAll host ring fresh)))
     = map logBody (auditLogs (storage (@processAll host ring reseeded))).
Proof.
  split; [reflexivity|].
  pose proof (@C1_runs_agree_up_to_audit_ids host ring fresh reseeded eq_refl)
    as (_ & _ & Ha & Hl & _).
  split; [exact Ha | exact Hl].
Defined.



(** The evaluation of A after scenario 4 scores 30: a medium alert. *)
Lemma C4_witness :
  let E := @EvidenceEngine.evaluateAccount host (t0 + 2 * hour) "A" afterRing in
  ev_score E = 30%Z
  /\ exists A : Alert,
       @AlertGenerator.generateAlert (t0 + 2 * hour) E = Some A
       /\ al_severity A = medium.
Proof.
  cbn zeta. split; [reflexivity|].
  destruct (@AlertGenerator.generateAlert (t0 + 2 * hour)
              (@EvidenceEngine.evaluateAccount host (t0 + 2 * hour) "A" afterRing))
    as [A|] eqn:Hg.
  - exists A. split; [reflexivity|].
    destruct (proj2 (C4_alert_gate_and_severity (t0 + 2 * hour) _) A Hg) as (_ & Hr & ->).
    rewrite Hr. reflexivity.
  - apply (proj1 (C4_alert_gate_and_severity (t0 + 2 * hour) _)) in Hg.
    vm_compute in Hg. discriminate Hg.
Defined.


(** C8 fails as stated: with the baseline of account A, whose average daily
    outflow is 10, [checkDeviation] reports an amount_deviation for a
    transaction of 100 sent by X. *)
Lemma C8_counterexample :
  ~ (forall (tx : Transaction) (b : Baseline) (d : Deviation),
        In d (deviations (BaselineEngine.checkDeviation tx b)) ->
        dev_type d = amount_deviation \/ dev_type d = first_transaction ->
        tx_sender tx = bl_accountId b).
Proof.
  intros Hown.
  specialize (Hown foreign baselineA
                {| dev_type := amount_deviation; dev_severity := high;
                   dev_ratio := Some 10%float |}).
  assert (Heq : tx_sender foreign = bl_accountId baselineA).
  { apply Hown; [vm_compute; left; reflexivity | left; reflexivity]. }
  vm_compute in Heq. discriminate Heq.
Qed.

(** The transaction of X against the baseline of A meets the three tests. *)
Lemma C8_witness :
  tx_sender foreign <> ""
  /\ JS.gt (avgDailyOutflow baselineA) 0 = true
  /\ JS.gt (tx_amount foreign / avgDailyOutflow baselineA)%float 3 = true
  /\ exists d : Deviation,
       In d (deviations (BaselineEngine.checkDeviation foreign baselineA))
       /\ dev_type d = amount_deviation.
Proof.
  assert (Hs : tx_sender foreign <> "") by discriminate.
  assert (Hp : JS.gt (avgDailyOutflow baselineA) 0 = true) by reflexivity.
  assert (H3 : JS.gt (tx_amount foreign / avgDailyOutflow baselineA)%float 3 = true)
    by reflexivity.
  repeat (split; [assumption|]).
  exact (proj1 (proj2 (@C8_deviation_tests_sender_only_for_presence host foreign baselineA))
           Hs Hp H3).
Defined.

(** Two hours after scenario 4, A still scores 30: both calls return the alert. *)
Lemma C10_witness :
  (30 <= ev_score (@EvidenceEngine.evaluateAccount host (t0 + 2 * hour) "A" afterRing))%Z
  /\ exists alert : Alert,
       fst (@AlertGenerator.createAndSaveAlert host (t0 + 2 * hour) "A" afterRing) = Some alert
       /\ (let w1 := snd (@AlertGenerator.createAndSaveAlert host (t0 + 2 * hour) "A" afterRing) in
           fst (@AlertGenerator.createAndSaveAlert host (t0 + 2 * hour) "A" w1) = Some alert
           /\ snd (@AlertGenerator.createAndSaveAlert host (t0 + 2 * hour) "A" w1) = w1).
Proof.
  assert (Hs : (30 <= ev_score (@EvidenceEngine.evaluateAccount host (t0 + 2 * hour) "A"
                                  afterRing))%Z)
    by (apply Z.leb_le; reflexivity).
  split; [exact Hs|].
  destruct (@C10_suppressed_duplicate_is_still_returned host (t0 + 2 * hour) "A" afterRing Hs)
    as (alert & _ & Hfst & _ & _ & Hagain).
  exists alert. split; [exact Hfst | exact Hagain].
Defined.

End Instances.

(** ** Sets built from lists *)

Section Sets.
Context `{EqDecision A}.

Lemma setOf_NoDup (l : list A) : NoDup (JS.setOf l).
Proof. unfold JS.setOf. rewrite reverse_Permutation. apply NoDup_remove_dups. Qed.

Lemma setOf_In (l : list A) (x : A) : In x (JS.setOf l) <-> In x l.
Proof.
  unfold JS.setOf.
  rewrite <- !list_elem_of_In, elem_of_reverse, elem_of_remove_dups, elem_of_reverse.
  reflexivity.
Qed.



End Sets.

Section Sorting.
Context {A : Type} (before : A -> A -> bool).

Lemma insert_Permutation (x : A) (l : list A) : JS.insert before x l ≡ₚ x :: l.
Proof.
  induction l as [|y l IH]; simpl; [reflexivity|].
  destruct (before y x); [|reflexivity].
  rewrite IH. apply Permutation_swap.
Qed.

Lemma sort_Permutation (l : list A) : JS.sort before l ≡ₚ l.
Proof.
  induction l as [|x l IH]; simpl; [reflexivity|].
  rewrite insert_Permutation, IH. reflexivity.
Qed.

Lemma sort_In (l : list A) (x : A) : In x (JS.sort before l) <-> In x l.
Proof. rewrite <- !list_elem_of_In, sort_Permutation. reflexivity. Qed.

Lemma sort_length (l : list A) : length (JS.sort before l) = length l.
Proof. rewrite sort_Permutation. reflexivity. Qed.

End Sorting.

(** ** Fund-flow tracing *)

Section FundPaths.
Import NetworkAnalyzer.

Lemma existsb_eqb_false (x : string) (l : list string) :
  existsb (String.eqb x) l = false <-> ~ In x l.
Proof.
  split.
  - intros Hf Hin. assert (existsb (String.eqb x) l = true);
      [apply existsb_exists; exists x; split; [exact Hin | apply String.eqb_refl] | congruence].
  - intros Hn. destruct (existsb (String.eqb x) l) eqn:He; [|reflexivity].
    apply existsb_exists in He as (y & Hy & Heq). apply String.eqb_eq in Heq. subst. contradiction.
Qed.

Lemma endOf_snoc a path tx : endOf a (path ++ [tx]) = tx_receiver tx.
Proof. unfold endOf. rewrite last_snoc. reflexivity. Qed.

Lemma endOf_app_cons a cur tx ext : endOf a (cur ++ tx :: ext) = endOf (tx_receiver tx) ext.
Proof.
  unfold endOf. rewrite last_app, last_cons.
  destruct (last ext); reflexivity.
Qed.

Lemma outflowsOf_In transactions lastAccount visited tx :
  In tx (outflowsOf transactions lastAccount visited) <->
  In tx transactions /\ tx_sender tx = lastAccount /\ ~ In (tx_id tx) visited.
Proof.
  unfold outflowsOf. rewrite List.filter_In, andb_true_iff, negb_true_iff,
    String.eqb_eq, existsb_eqb_false. tauto.
Qed.

Lemma traceFundPaths_step startAccount transactions remaining currentPath visited :
  traceFundPaths startAccount transactions (S remaining) currentPath visited =
  match outflowsOf transactions (endOf startAccount currentPath) visited with
  | [] => match currentPath with [] => [] | _ => [currentPath] end
  | _ => flat_map (fun tx =>
                     traceFundPaths startAccount transactions remaining
                                    (currentPath ++ [tx]) (tx_id tx :: visited))
                  (outflowsOf transactions (endOf startAccount currentPath) visited)
  end.
Proof. reflexivity. Qed.

(** What every traced path looks like, from any point of the traversal. *)
Lemma traceFundPaths_sound s txs remaining :
  forall cur visited p,
    In p (traceFundPaths s txs remaining cur visited) ->
    exists ext,
      p = cur ++ ext
      /\ (length ext <= remaining)%nat
      /\ (forall tx, In tx ext -> In tx txs)
      /\ chain (endOf s cur) ext
      /\ NoDup (map tx_id ext)
      /\ (forall tx, In tx ext -> ~ In (tx_id tx) visited)
      /\ (length ext = remaining
          \/ forall tx, In tx txs -> tx_sender tx = endOf s p ->
                        In (tx_id tx) (map tx_id ext) \/ In (tx_id tx) visited)
      /\ (cur = [] -> ext = [] -> remaining = 0%nat).
Proof.
  induction remaining as [|r IH]; intros cur visited p Hin.
  - destruct Hin as [<-|[]]. exists []. rewrite app_nil_r.
    split; [reflexivity|]. split; [simpl; lia|]. split; [intros tx []|].
    split; [exact I|]. split; [constructor|]. split; [intros tx []|].
    split; [left; reflexivity | reflexivity].
  - rewrite traceFundPaths_step in Hin.
    destruct (outflowsOf txs (endOf s cur) visited) as [|o os] eqn:Hout.
    + destruct cur as [|c cur]; [destruct Hin|]. destruct Hin as [<-|[]].
      exists []. rewrite app_nil_r.
      split; [reflexivity|]. split; [simpl; lia|]. split; [intros tx []|].
      split; [exact I|]. split; [constructor|]. split; [intros tx []|].
      split; [|discriminate].
      right. intros tx Htx Hs. right.
      destruct (in_dec string_dec (tx_id tx) visited) as [Hv|Hv]; [exact Hv|].
      assert (Ho : In tx (outflowsOf txs (endOf s (c :: cur)) visited))
        by (apply outflowsOf_In; auto).
      rewrite Hout in Ho. destruct Ho.
    + rewrite <- Hout in Hin. apply in_flat_map in Hin as (tx & Htx & Hin).
      apply outflowsOf_In in Htx as (Htxs & Hsender & Hvis).
      apply IH in Hin as (ext & -> & Hlen & Hmem & Hchain & Hnd & Hnv & Hmax & _).
      exists (tx :: ext). rewrite <- app_assoc.
      split; [reflexivity|]. split; [simpl; lia|].
      split; [intros tx' [<-|Hi]; auto|].
      split; [split; [exact Hsender | rewrite endOf_snoc in Hchain; exact Hchain]|].
      split.
      { simpl. constructor; [|exact Hnd].
        intros Hi. apply list_elem_of_In, in_map_iff in Hi as (tx' & Hid & Hi).
        apply (Hnv tx' Hi). left. symmetry. exact Hid. }
      split.
      { intros tx' [<-|Hi]; [exact Hvis|]. intros Hv. apply (Hnv tx' Hi). right. exact Hv. }
      split; [|discriminate].
      destruct Hmax as [Hfull|Hmax]; [left; simpl; lia|].
      right. intros tx' Htx' Hs'.
      rewrite <- app_assoc in Hmax. simpl in Hmax.
      destruct (Hmax tx' Htx' Hs') as [Hi|[Hi|Hi]].
      * left. right. exact Hi.
      * left. left. exact Hi.
      * right. exact Hi.
Qed.

(** Every path of that shape is traced. *)
Lemma traceFundPaths_complete s txs remaining :
  forall cur visited ext,
    (length ext <= remaining)%nat ->
    (forall tx, In tx ext -> In tx txs) ->
    chain (endOf s cur) ext ->
    NoDup (map tx_id ext) ->
    (forall tx, In tx ext -> ~ In (tx_id tx) visited) ->
    (length ext = remaining
     \/ forall tx, In tx txs -> tx_sender tx = endOf s (cur ++ ext) ->
                   In (tx_id tx) (map tx_id ext) \/ In (tx_id tx) visited) ->
    (cur = [] -> ext = [] -> remaining = 0%nat) ->
    In (cur ++ ext) (traceFundPaths s txs remaining cur visited).
Proof.
  induction remaining as [|r IH]; intros cur visited ext Hlen Hmem Hchain Hnd Hnv Hmax Hne.
  - destruct ext; [|simpl in Hlen; lia]. rewrite app_nil_r. left. reflexivity.
  - rewrite traceFundPaths_step. destruct ext as [|tx ext].
    + rewrite app_nil_r in *.
      destruct Hmax as [Hfull|Hmax]; [simpl in Hfull; lia|].
      assert (Hout : outflowsOf txs (endOf s cur) visited = []).
      { destruct (outflowsOf txs (endOf s cur) visited) as [|o os] eqn:Ho; [reflexivity|].
        assert (Hin : In o (outflowsOf txs (endOf s cur) visited)) by (rewrite Ho; left; reflexivity).
        apply outflowsOf_In in Hin as (Ht & Hs & Hv).
        destruct (Hmax o Ht Hs) as [[]|Hv']. contradiction. }
      rewrite Hout. destruct cur as [|c cur]; [specialize (Hne eq_refl eq_refl); lia|].
      left. reflexivity.
    + destruct Hchain as [Hsender Hchain].
      assert (Htx : In tx (outflowsOf txs (endOf s cur) visited)).
      { apply outflowsOf_In. split; [apply Hmem; left; reflexivity|].
        split; [exact Hsender | apply Hnv; left; reflexivity]. }
      destruct (outflowsOf txs (endOf s cur) visited) as [|o os] eqn:Ho; [destruct Htx|].
      rewrite <- Ho. apply in_flat_map. exists tx. split; [rewrite Ho; exact Htx|].
      replace (cur ++ tx :: ext) with ((cur ++ [tx]) ++ ext)
        by (rewrite <- app_assoc; reflexivity).
      simpl in Hnd. apply NoDup_cons in Hnd as [Hfresh Hnd].
      rewrite list_elem_of_In in Hfresh.
      apply IH.
      * simpl in Hlen. lia.
      * intros tx' Hi. apply Hmem. right. exact Hi.
      * rewrite endOf_snoc. exact Hchain.
      * exact Hnd.
      * intros tx' Hi [Heq|Hv].
        -- apply Hfresh. apply in_map_iff. exists tx'. split; [symmetry; exact Heq | exact Hi].
        -- apply (Hnv tx'); [right; exact Hi | exact Hv].
      * destruct Hmax as [Hfull|Hmax]; [left; simpl in Hfull; lia|].
        right. intros tx' Htx' Hs'.
        rewrite <- app_assoc in Hs'. simpl in Hs'.
        destruct (Hmax tx' Htx' Hs') as [[Hi|Hi]|Hi].
        -- right. left. exact Hi.
        -- left. exact Hi.
        -- right. right. exact Hi.
      * intros Hnil. destruct cur; discriminate.
Qed.

End FundPaths.

(** ** Network signals *)

Section Signals.
Import NetworkAnalyzer.

Lemma traceFundPaths_top_sound (a : string) (txs : list Transaction) (maxDepth : nat)
      (p : list Transaction) :
  In p (traceFundPaths a txs maxDepth [] []) ->
  fundPath a txs maxDepth p /\ (p = [] -> maxDepth = 0%nat).
Proof.
  intros Hin.
  apply traceFundPaths_sound in Hin as (ext & -> & Hlen & Hmem & Hchain & Hnd & _ & Hmax & Hne).
  simpl in *. split; [|intros Hnil; apply Hne; auto].
  split; [exact Hlen|]. split; [exact Hmem|]. split; [exact Hchain|]. split; [exact Hnd|].
  destruct Hmax as [Hfull|Hmax]; [left; exact Hfull|].
  right. intros tx Htx Hs. destruct (Hmax tx Htx Hs) as [Hi|[]]. exact Hi.
Qed.

Lemma traceFundPaths_top_complete (a : string) (txs : list Transaction) (maxDepth : nat)
      (p : list Transaction) :
  fundPath a txs maxDepth p -> (p = [] -> maxDepth = 0%nat) ->
  In p (traceFundPaths a txs maxDepth [] []).
Proof.
  intros (Hlen & Hmem & Hchain & Hnd & Hmax) Hne.
  change p with ([] ++ p).
  apply traceFundPaths_complete; auto.
  destruct Hmax as [Hfull|Hmax]; [left; exact Hfull|].
  right. intros tx Htx Hs. left. apply Hmax; assumption.
Qed.

(** X1: [traceFundPaths(a, transactions, maxDepth)] returns exactly the paths
    of at most [maxDepth] transactions of the list that start at [a], follow
    one another, use no transaction id twice and cannot be extended (the depth
    is reached, or every transaction leaving the last account is on the path
    already); the empty path is returned only for [maxDepth] 0. *)
Theorem X1_traceFundPaths_are_the_maximal_simple_paths
        (a : string) (txs : list Transaction) (maxDepth : nat) (p : list Transaction) :
  In p (traceFundPaths a txs maxDepth [] []) <->
  fundPath a txs maxDepth p /\ (p = [] -> maxDepth = 0%nat).
Proof.
  split.
  - apply traceFundPaths_top_sound.
  - intros [Hpath Hne]. apply traceFundPaths_top_complete; assumption.
Qed.

Lemma longestPath_spec p0 rest :
  In (longestPath p0 rest) (p0 :: rest)
  /\ forall p, In p (p0 :: rest) -> (length p <= length (longestPath p0 rest))%nat.
Proof.
  unfold longestPath. revert p0. induction rest as [|q rest IH]; intros p0.
  - simpl. split; [left; reflexivity|]. intros p [<-|[]]. lia.
  - cbn [fold_left].
    destruct (IH (if (length p0 <? length q)%nat then q else p0)) as [Hin Hmax].
    split.
    + destruct Hin as [Heq|Hin]; [|right; right; exact Hin].
      rewrite <- Heq. destruct (length p0 <? length q)%nat; [right; left|left]; reflexivity.
    + intros p Hp.
      assert (Hstep : (length p0 <= length (if (length p0 <? length q)%nat then q else p0))%nat
                      /\ (length q <= length (if (length p0 <? length q)%nat then q else p0))%nat).
      { destruct (Nat.ltb_spec (length p0) (length q)); lia. }
      pose proof (Hmax _ (or_introl eq_refl)) as Hacc.
      destruct Hp as [<-|[<-|Hp]]; [lia | lia | apply Hmax; right; exact Hp].
Qed.

Lemma circular_filter a path :
  path <> [] ->
  match last path with
  | Some tx => String.eqb (tx_receiver tx) a && (3 <=? length path)%nat
  | None => false
  end = true <-> endOf a path = a /\ (3 <= length path)%nat.
Proof.
  intros Hne. unfold endOf. destruct (last path) as [tx|] eqn:Hl.
  - rewrite andb_true_iff, String.eqb_eq, Nat.leb_le. reflexivity.
  - apply last_None in Hl. contradiction.
Qed.

Lemma circular_candidates a txs p :
  In p (List.filter (fun path =>
                       match last path with
                       | Some tx => String.eqb (tx_receiver tx) a && (3 <=? length path)%nat
                       | None => false
                       end) (traceFundPaths a txs 5 [] []))
  <-> circularPath a txs p.
Proof.
  rewrite List.filter_In. unfold circularPath.
  split.
  - intros [Hin Hc]. apply traceFundPaths_top_sound in Hin as [Hf Hne].
    assert (p <> []) by (intros Hnil; specialize (Hne Hnil); discriminate).
    apply circular_filter in Hc; tauto.
  - intros (Hf & He & Hlen).
    assert (p <> []) by (intros ->; simpl in Hlen; lia).
    split; [apply traceFundPaths_top_complete; [exact Hf | intros; contradiction]|].
    apply circular_filter; auto.
Qed.

(** X2: [detectCircularFlow(a, transactions)] detects nothing exactly when no
    maximal simple path of at most 5 transactions leaves [a] and comes back to
    it through at least 3 of them; when it detects, it reports such a round
    trip (3 to 5 transactions, ending at [a]) of the greatest length. *)
Theorem X2_circular_flow_reports_a_longest_round_trip (a : string) (txs : list Transaction) :
  (detectCircularFlow a txs = None <-> forall p, ~ circularPath a txs p)
  /\ (forall s : Signal,
        detectCircularFlow a txs = Some s ->
        exists path : list Transaction,
          s = circular_flow path
          /\ circularPath a txs path
          /\ (3 <= length path <= 5)%nat
          /\ forall p, circularPath a txs p -> (length p <= length path)%nat).
Proof.
  unfold detectCircularFlow.
  pose proof (circular_candidates a txs) as Hcand. cbv zeta.
  destruct (List.filter _ (traceFundPaths a txs 5 [] [])) as [|p0 rest].
  - split.
    + split; [intros _ p Hp; apply Hcand in Hp; destruct Hp | reflexivity].
    + intros s Hs. discriminate.
  - split.
    + split; [discriminate|]. intros Hno. exfalso.
      apply (Hno p0), Hcand. left. reflexivity.
    + intros s [= <-]. exists (longestPath p0 rest).
      destruct (longestPath_spec p0 rest) as [Hin Hmax].
      apply Hcand in Hin. split; [reflexivity|]. split; [exact Hin|].
      split; [destruct Hin as ((Hlen & _) & _ & Hthree); lia|].
      intros p Hp. apply Hmax, Hcand, Hp.
Qed.

Lemma includes_In (l : list string) (x : string) : includes l x = true <-> In x l.
Proof.
  unfold includes. rewrite existsb_exists. split.
  - intros (y & Hy & Heq). apply String.eqb_eq in Heq. subst. exact Hy.
  - intros Hin. exists x. split; [exact Hin | apply String.eqb_refl].
Qed.

Lemma isFlagged_true (e : Evidence) :
  isFlagged e = true <-> ae_riskLevel e = HighRisk \/ ae_riskLevel e = ProbableML.
Proof.
  unfold isFlagged. rewrite orb_true_iff, !bool_decide_eq_true. reflexivity.
Qed.

Lemma flaggedAccounts_In (w : World) (x : string) :
  In x (flaggedAccounts (accountEvidence (storage w))) <-> flagged w x.
Proof.
  unfold flaggedAccounts, flagged. rewrite in_map_iff. split.
  - intros ([k e] & <- & Hin). apply List.filter_In in Hin as [Hin Hf].
    apply list_elem_of_In, elem_of_map_to_list in Hin.
    exists e. split; [exact Hin | apply isFlagged_true, Hf].
  - intros (e & Hl & Hf). exists (x, e). split; [reflexivity|].
    apply List.filter_In. split; [apply list_elem_of_In, elem_of_map_to_list, Hl|].
    apply isFlagged_true, Hf.
Qed.

Lemma flaggedLink_filter (w : World) (a : string) (tx : Transaction) :
  (String.eqb (tx_sender tx) a
     && includes (flaggedAccounts (accountEvidence (storage w))) (tx_receiver tx))
  || (String.eqb (tx_receiver tx) a
        && includes (flaggedAccounts (accountEvidence (storage w))) (tx_sender tx)) = true
  <-> flaggedLink w a tx.
Proof.
  unfold flaggedLink.
  rewrite orb_true_iff, !andb_true_iff, !String.eqb_eq, !includes_In, !flaggedAccounts_In.
  reflexivity.
Qed.

(** X3: [detectFlaggedLinks(a, transactions)] detects nothing exactly when no
    transaction of the list links [a], in either direction, to an account
    whose persisted evidence is High Risk or Probable Money Laundering; when
    it detects, [connections] are exactly those transactions
    and [linkedAccounts] are their counterparties, each once and
    each one flagged. *)
Theorem X3_flagged_links_are_the_links_to_flagged_accounts
        (w : World) (a : string) (txs : list Transaction) :
  (detectFlaggedLinks w a txs = None <-> forall tx, In tx txs -> ~ flaggedLink w a tx)
  /\ (forall s : Signal,
        detectFlaggedLinks w a txs = Some s ->
        exists (linked : list string) (connections : list Transaction),
          s = flagged_links linked connections
          /\ connections <> []
          /\ (forall tx, In tx connections <-> In tx txs /\ flaggedLink w a tx)
          /\ NoDup linked
          /\ (forall x, In x linked <->
                        exists tx, In tx connections /\ counterparty a tx = x)
          /\ (forall x, In x linked -> flagged w x)).
Proof.
  unfold detectFlaggedLinks, Store.getData. cbv zeta.
  set (F := flaggedAccounts (accountEvidence (storage w))).
  set (conns := List.filter _ txs).
  assert (Hconns : forall tx, In tx conns <-> In tx txs /\ flaggedLink w a tx).
  { intros tx. subst conns F. rewrite List.filter_In, flaggedLink_filter. reflexivity. }
  assert (Hempty : F = [] -> conns = []).
  { intros HF. destruct conns as [|c cs] eqn:Hc; [reflexivity|]. exfalso.
    assert (Hin : In c (c :: cs)) by (left; reflexivity).
    apply Hconns in Hin as [_ [[_ Hfl]|[_ Hfl]]];
      apply flaggedAccounts_In in Hfl; fold F in Hfl; rewrite HF in Hfl; destruct Hfl. }
  assert (Hres :
    match F with
    | [] => None
    | _ => match conns with
           | [] => None
           | _ => Some (flagged_links (JS.setOf (map (counterparty a) conns)) conns)
           end
    end =
    match conns with
    | [] => None
    | _ => Some (flagged_links (JS.setOf (map (counterparty a) conns)) conns)
    end).
  { destruct F; [rewrite Hempty; reflexivity | reflexivity]. }
  rewrite Hres. clear Hres Hempty.
  destruct conns as [|c cs] eqn:Hc.
  - split.
    + split; [|reflexivity]. intros _ tx Htx Hfl.
      destruct (proj2 (Hconns tx) (conj Htx Hfl)).
    + intros s Hs. discriminate.
  - rewrite <- Hc in *. split.
    + split; [discriminate|]. intros Hno. exfalso.
      assert (Hin : In c conns) by (rewrite Hc; left; reflexivity).
      apply Hconns in Hin as [Hin Hfl]. exact (Hno c Hin Hfl).
    + intros s [= <-]. exists (JS.setOf (map (counterparty a) conns)), conns.
      split; [reflexivity|]. split; [rewrite Hc; discriminate|].
      split; [exact Hconns|]. split; [apply setOf_NoDup|].
      assert (Hlinked : forall x, In x (JS.setOf (map (counterparty a) conns)) <->
                                  exists tx, In tx conns /\ counterparty a tx = x).
      { intros x. rewrite setOf_In, in_map_iff. split; intros (tx & H1 & H2); eauto. }
      split; [exact Hlinked|].
      intros x Hx. apply Hlinked in Hx as (tx & Htx & <-).
      apply Hconns in Htx as [_ Hfl]. unfold counterparty.
      destruct (String.eqb_spec (tx_sender tx) a) as [Hs|Hs].
      * destruct Hfl as [[_ Hfl]|[Hr Hfl]]; [exact Hfl|]. rewrite Hr, <- Hs. exact Hfl.
      * destruct Hfl as [[Hs' _]|[_ Hfl]]; [contradiction | exact Hfl].
Qed.


End Signals.

(** ** Baselines *)

Section Baselines.
Import BaselineEngine.

Lemma filter_nil_iff {A} (p : A -> bool) (l : list A) :
  List.filter p l = [] <-> forall x, In x l -> p x = false.
Proof.
  induction l as [|y l IH]; simpl.
  - split; [intros _ x [] | reflexivity].
  - destruct (p y) eqn:Hy.
    + split; [discriminate|]. intros Hall. specialize (Hall y (or_introl eq_refl)). congruence.
    + rewrite IH. split.
      * intros Hall x [<-|Hx]; auto.
      * intros Hall x Hx. apply Hall. right. exact Hx.
Qed.

Lemma ageInDays_nonzero now first : ageInDays now first <> 0%Z.
Proof.
  unfold ageInDays. destruct first as [t|]; [|discriminate].
  destruct (Z.eqb_spec ((now - t) `div` JS.msPerDay) 0); [discriminate | assumption].
Qed.

Lemma firstTransaction_In tx0 rest : In (firstTransaction tx0 rest) (tx0 :: rest).
Proof.
  unfold firstTransaction. revert tx0. induction rest as [|tx rest IH]; intros tx0.
  - left. reflexivity.
  - cbn [fold_left].
    destruct (IH (if JS.date_lt (tx_timestamp tx) (tx_timestamp tx0) then tx else tx0))
      as [Heq|Hin]; [|right; right; exact Hin].
    rewrite <- Heq. destruct (JS.date_lt _ _); [right; left | left]; reflexivity.
Qed.

(** Among dated transactions the fold keeps an earliest one. *)
Lemma firstTransaction_earliest tx0 rest :
  (forall tx, In tx (tx0 :: rest) -> tx_timestamp tx <> None) ->
  forall tx, In tx (tx0 :: rest) ->
    JS.date_ge (tx_timestamp tx) (tx_timestamp (firstTransaction tx0 rest)) = true.
Proof.
  unfold firstTransaction. revert tx0. induction rest as [|y rest IH]; intros tx0 Hdated tx Hin.
  - destruct Hin as [<-|[]]. cbn [fold_left].
    destruct (tx_timestamp tx0) as [t|] eqn:Ht; [|destruct (Hdated tx0 (or_introl eq_refl) Ht)].
    simpl. apply Z.leb_le. lia.
  - cbn [fold_left].
    set (acc := if JS.date_lt (tx_timestamp y) (tx_timestamp tx0) then y else tx0).
    assert (Hacc_dated : forall z, In z (acc :: rest) -> tx_timestamp z <> None).
    { intros z [<-|Hz]; [|apply Hdated; right; right; exact Hz].
      subst acc. destruct (JS.date_lt _ _); apply Hdated; [right; left | left]; reflexivity. }
    assert (Hfirst := IH acc Hacc_dated).
    destruct (tx_timestamp tx0) as [t0|] eqn:Ht0;
      [|destruct (Hdated tx0 (or_introl eq_refl) Ht0)].
    destruct (tx_timestamp y) as [ty|] eqn:Hty;
      [|destruct (Hdated y (or_intror (or_introl eq_refl)) Hty)].
    assert (Hacc0 : JS.date_ge (Some t0) (tx_timestamp acc) = true
                    /\ JS.date_ge (Some ty) (tx_timestamp acc) = true).
    { subst acc. simpl. destruct (Z.ltb_spec ty t0); rewrite ?Ht0, ?Hty; simpl;
        split; apply Z.leb_le; lia. }
    assert (Htrans : forall u v w, JS.date_ge u v = true -> JS.date_ge v w = true ->
                                   JS.date_ge u w = true).
    { intros [u|] [v|] [w'|]; simpl; try discriminate.
      intros H1 H2. apply Z.leb_le in H1, H2. apply Z.leb_le. lia. }
    pose proof (Hfirst acc (or_introl eq_refl)) as Hle.
    destruct Hin as [<-|[<-|Hin]].
    + rewrite Ht0. eapply Htrans; [apply Hacc0 | exact Hle].
    + rewrite Hty. eapply Htrans; [apply Hacc0 | exact Hle].
    + apply Hfirst. right. exact Hin.
Qed.

(** X5: the baseline counts the transactions that involve the account; its
    account age is 0 exactly for an account that no transaction involves, for
    which the baseline is the default one (all zeros); for every other
    account the age, by which the averages are divided, is not 0. *)
Theorem X5_baseline_of_seen_and_unseen_accounts
        (now : Z) (a : string) (txs : list Transaction) :
  let b := calculateBaseline now a txs in
  totalTransactions b = length (List.filter (involves a) txs)
  /\ bl_accountId b = a
  /\ (accountAge b = 0%Z <-> forall tx, In tx txs -> involves a tx = false)
  /\ ((forall tx, In tx txs -> involves a tx = false) -> b = getDefaultBaseline now a).
Proof.
  cbv zeta. unfold calculateBaseline.
  pose proof (filter_nil_iff (involves a) txs) as Hnil.
  destruct (List.filter (involves a) txs) as [|tx0 rest] eqn:Hf.
  - split; [reflexivity|]. split; [reflexivity|].
    split; [split; [intros _; apply Hnil; reflexivity | reflexivity] | reflexivity].
  - cbn [totalTransactions bl_accountId accountAge].
    split; [reflexivity|]. split; [reflexivity|].
    assert (Hseen : ~ forall tx, In tx txs -> involves a tx = false).
    { intros Hall. apply Hnil in Hall. discriminate. }
    split; [|intros Hall; contradiction].
    split; [intros Hz; destruct (ageInDays_nonzero _ _ Hz) | intros Hall; contradiction].
Qed.

(** X6: when the account has transactions and each of them is dated at or
    before the clock, or has a timestamp that does not parse, the account age
    is at least one day. *)
Theorem X6_account_age_at_least_one_day_without_postdating
        (now : Z) (a : string) (txs : list Transaction) :
  (exists tx, In tx txs /\ involves a tx = true) ->
  (forall tx, In tx txs -> involves a tx = true ->
     match tx_timestamp tx with Some t => (t <= now)%Z | None => True end) ->
  (1 <= accountAge (calculateBaseline now a txs))%Z.
Proof.
  intros (tx1 & Hin1 & Hinv1) Hpast. unfold calculateBaseline.
  destruct (List.filter (involves a) txs) as [|tx0 rest] eqn:Hf.
  - assert (Hin : In tx1 (List.filter (involves a) txs)) by (apply List.filter_In; auto).
    rewrite Hf in Hin. destruct Hin.
  - cbn [accountAge].
    pose proof (firstTransaction_In tx0 rest) as Hfirst.
    rewrite <- Hf in Hfirst. apply List.filter_In in Hfirst as [Hin Hinv].
    specialize (Hpast _ Hin Hinv).
    destruct (tx_timestamp (firstTransaction tx0 rest)) as [t|].
    + apply ageInDays_past, Hpast.
    + rewrite ageInDays_invalid. lia.
Qed.

(** X7: when every transaction of the account is dated, the account age is
    counted from the earliest of them: [floor((now - t) / 86400000)] days for
    the least timestamp [t], with 0 replaced by 1. *)
Theorem X7_account_age_counts_from_the_earliest_transaction
        (now : Z) (a : string) (txs : list Transaction) :
  (exists tx, In tx txs /\ involves a tx = true) ->
  (forall tx, In tx txs -> involves a tx = true -> tx_timestamp tx <> None) ->
  exists (first : Transaction) (t : Z),
    In first txs /\ involves a first = true /\ tx_timestamp first = Some t
    /\ (forall tx u, In tx txs -> involves a tx = true -> tx_timestamp tx = Some u -> (t <= u)%Z)
    /\ accountAge (calculateBaseline now a txs)
       = (if ((now - t) `div` 86400000 =? 0)%Z then 1 else (now - t) `div` 86400000)%Z.
Proof.
  intros (tx1 & Hin1 & Hinv1) Hdated. unfold calculateBaseline.
  destruct (List.filter (involves a) txs) as [|tx0 rest] eqn:Hf.
  - assert (Hin : In tx1 (List.filter (involves a) txs)) by (apply List.filter_In; auto).
    rewrite Hf in Hin. destruct Hin.
  - cbn [accountAge].
    assert (Hall : forall tx, In tx (tx0 :: rest) -> tx_timestamp tx <> None).
    { intros tx Hin. rewrite <- Hf in Hin. apply List.filter_In in Hin as [Hin Hinv].
      apply Hdated; assumption. }
    pose proof (firstTransaction_In tx0 rest) as Hfirst.
    pose proof (firstTransaction_earliest tx0 rest Hall) as Hmin.
    set (first := firstTransaction tx0 rest) in *.
    destruct (tx_timestamp first) as [t|] eqn:Ht; [|destruct (Hall first Hfirst Ht)].
    exists first, t. rewrite <- Hf in Hfirst. apply List.filter_In in Hfirst as [Hin Hinv].
    split; [exact Hin|]. split; [exact Hinv|]. split; [exact Ht|].
    split; [|reflexivity].
    intros tx u Htx Hinvtx Hu.
    assert (Hin' : In tx (tx0 :: rest)) by (rewrite <- Hf; apply List.filter_In; auto).
    specialize (Hmin tx Hin'). rewrite Hu in Hmin. simpl in Hmin.
    apply Z.leb_le in Hmin. exact Hmin.
Qed.

End Baselines.

(** ** Patterns *)

Section Patterns.
Context `{Runtime}.
Import BaselineEngine PatternDetector.

Lemma isInflow_true a tx : isInflow a tx = true <-> tx_receiver tx = a.
Proof. unfold isInflow. apply String.eqb_eq. Qed.

Lemma isOutflow_true a tx : isOutflow a tx = true <-> tx_sender tx = a.
Proof. unfold isOutflow. apply String.eqb_eq. Qed.

Lemma date_gt_Some d c :
  JS.date_gt d (Some c) = true <-> exists t, d = Some t /\ (c < t)%Z.
Proof.
  unfold JS.date_gt, JS.date_lt. destruct d as [t|].
  - rewrite Z.ltb_lt. split; [intros Hlt; exists t; auto | intros (? & [= <-] & Hlt); exact Hlt].
  - split; [discriminate | intros (? & [=] & _)].
Qed.



Lemma rapidCycle_length a txs inflow : (length (rapidCycle a txs inflow) <= 1)%nat.
Proof. unfold rapidCycle. destruct (matchingOutflow a txs inflow); simpl; lia. Qed.

Lemma flat_map_length_le {A B} (f : A -> list B) (l : list A) :
  (forall x, length (f x) <= 1)%nat -> (length (flat_map f l) <= length l)%nat.
Proof.
  intros Hf. induction l as [|x l IH]; simpl; [lia|].
  rewrite length_app. specialize (Hf x). lia.
Qed.

Lemma rapidCycle_sound a txs inflow c :
  In inflow txs -> tx_receiver inflow = a ->
  In c (rapidCycle a txs inflow) -> rapidInOut a txs c.
Proof.
  intros Hin Hrecv. unfold rapidCycle.
  destruct (matchingOutflow a txs inflow) as [out|] eqn:Hm; [|intros []].
  intros [<-|[]]. unfold matchingOutflow in Hm. cbv zeta in Hm.
  apply List.find_some in Hm as [Hout Hp].
  apply andb_true_iff in Hp as [Hp _].
  apply andb_true_iff in Hp as [Hp Hbefore].
  apply andb_true_iff in Hp as [Hsend Hafter].
  apply isOutflow_true in Hsend.
  destruct (tx_timestamp inflow) as [tin|] eqn:Hti;
    [|unfold JS.date_gt, JS.date_lt in Hafter; destruct (tx_timestamp out); discriminate].
  apply date_gt_Some in Hafter as (tout & Hto & Hlt).
  rewrite Hto in Hbefore. simpl in Hbefore. apply Z.ltb_lt in Hbefore.
  exists inflow, out, tin, tout. cbn [inflowId outflowId cyc_amount].
  repeat (split; [first [assumption | reflexivity]|]). lia.
Qed.

(** X9: when [detectLayering] reports layering, it lists at least three
    cycles and at most one per inflow of the account; each cycle pairs a
    payment into the account with a payment out of it that is dated after the
    inflow and less than two hours after it, both with timestamps that
    parse. *)
Theorem X9_layering_cycles_are_rapid_in_out_pairs
        (a : string) (txs : list Transaction) (p : Pattern) :
  detectLayering a txs = Some p ->
  exists cycles avg,
    p = layering cycles avg
    /\ (3 <= length cycles <= length (List.filter (isInflow a) txs))%nat
    /\ Forall (rapidInOut a txs) cycles.
Proof.
  unfold detectLayering. cbv zeta.
  set (inflows := JS.sort _ (List.filter (isInflow a) txs)).
  destruct (Nat.leb_spec 3 (length (flat_map (rapidCycle a txs) inflows))) as [Hge|Hlt];
    [|discriminate].
  intros [= <-]. do 2 eexists. split; [reflexivity|]. split.
  - split; [exact Hge|].
    etransitivity; [apply flat_map_length_le, rapidCycle_length|].
    subst inflows. rewrite sort_length. reflexivity.
  - apply Forall_forall. intros c Hc.
    apply list_elem_of_In, in_flat_map in Hc as (inflow & Hin & Hc).
    subst inflows. apply sort_In, List.filter_In in Hin as [Hin Hrecv].
    apply isInflow_true in Hrecv. eapply rapidCycle_sound; eassumption.
Qed.


(** X11: [detectIncomeMismatch] reports nothing for an account whose
    history is shorter than seven days: one without transactions, or one
    whose transactions are all dated less than seven days before the clock or
    have a timestamp that does not parse. *)
Theorem X11_no_income_mismatch_within_the_first_week
        (now : Z) (a : string) (txs : list Transaction) :
  (forall tx, In tx txs -> involves a tx = true ->
     match tx_timestamp tx with
     | Some t => (now - 7 * 86400000 < t)%Z
     | None => True
     end) ->
  detectIncomeMismatch now a txs = None.
Proof.
  intros Hyoung. unfold detectIncomeMismatch. cbv zeta.
  assert (Hage : (accountAge (calculateBaseline now a txs) < 7)%Z).
  { unfold calculateBaseline.
    destruct (List.filter (involves a) txs) as [|tx0 rest] eqn:Hf; [simpl; lia|].
    cbn [accountAge].
    pose proof (firstTransaction_In tx0 rest) as Hfirst.
    rewrite <- Hf in Hfirst. apply List.filter_In in Hfirst as [Hin Hinv].
    specialize (Hyoung _ Hin Hinv). unfold ageInDays.
    destruct (tx_timestamp (firstTransaction tx0 rest)) as [t|]; [|lia].
    assert (((now - t) `div` JS.msPerDay < 7)%Z).
    { apply Z.div_lt_upper_bound; unfold JS.msPerDay; lia. }
    destruct (_ =? 0)%Z; lia. }
  apply Z.ltb_lt in Hage. rewrite Hage. reflexivity.
Qed.

Lemma detectSmurfing_type a txs p :
  detectSmurfing a txs = Some p -> pattern_type p = "smurfing" /\ pattern_severity p = high.
Proof.
  unfold detectSmurfing. cbv zeta. destruct (_ <=? _)%nat; [|discriminate].
  intros [= <-]. split; reflexivity.
Qed.

Lemma detectLayering_type a txs p :
  detectLayering a txs = Some p -> pattern_type p = "layering" /\ pattern_severity p = high.
Proof.
  unfold detectLayering. cbv zeta. destruct (_ <=? _)%nat; [|discriminate].
  intros [= <-]. split; reflexivity.
Qed.

Lemma detectStructuring_type a txs b p :
  detectStructuring a txs b = Some p ->
  pattern_type p = "structuring" /\ pattern_severity p = high.
Proof.
  unfold detectStructuring. cbv zeta. destruct (_ <=? _)%nat; [|discriminate].
  destruct (_ <=? _)%nat; [|discriminate]. intros [= <-]. split; reflexivity.
Qed.

Lemma detectIncomeMismatch_type now a txs p :
  detectIncomeMismatch now a txs = Some p -> pattern_type p = "income_mismatch".
Proof.
  unfold detectIncomeMismatch. cbv zeta. destruct (_ <? _)%Z; [discriminate|].
  destruct (JS.gt _ _); [|discriminate]. destruct (JS.gt _ _); [|discriminate].
  intros [= <-]. reflexivity.
Qed.

(** X29: the pattern summary of an account names each pattern type at most
    once, in the order smurfing, layering, structuring, income mismatch, so
    it counts at most four patterns; every pattern but an income mismatch is
    of high severity, so the high-severity count is the pattern count or one
    less, and less only when an income mismatch is listed. *)
Theorem X29_pattern_summary_lists_each_type_once
        (now : Z) (a : string) (txs : list Transaction) :
  let s := getPatternSummary now a txs in
  (exists sm la st im : bool,
      ps_patterns s = (if sm then ["smurfing"] else []) ++ (if la then ["layering"] else [])
                      ++ (if st then ["structuring"] else [])
                      ++ (if im then ["income_mismatch"] else []))
  /\ patternCount s = length (ps_patterns s)
  /\ (patternCount s <= 4)%nat
  /\ (patternCount s - 1 <= highSeverityCount s <= patternCount s)%nat
  /\ (highSeverityCount s < patternCount s -> In "income_mismatch" (ps_patterns s))%nat.
Proof.
  cbv zeta. unfold getPatternSummary, detectPatterns. cbv zeta.
  cbn [ps_patterns patternCount highSeverityCount].
  pose proof (detectSmurfing_type a (getRecentActivity now a txs 48)) as Hsm.
  pose proof (detectLayering_type a txs) as Hla.
  pose proof (detectStructuring_type a txs (calculateBaseline now a txs)) as Hst.
  pose proof (detectIncomeMismatch_type now a txs) as Him.
  set (o1 := detectSmurfing a _) in *.
  set (o2 := detectLayering a txs) in *.
  set (o3 := detectStructuring a txs _) in *.
  set (o4 := detectIncomeMismatch now a txs) in *.
  split.
  { exists (match o1 with Some _ => true | None => false end),
      (match o2 with Some _ => true | None => false end),
      (match o3 with Some _ => true | None => false end),
      (match o4 with Some _ => true | None => false end).
    destruct o1 as [p1|], o2 as [p2|], o3 as [p3|], o4 as [p4|]; simpl;
      rewrite ?(proj1 (Hsm _ eq_refl)), ?(proj1 (Hla _ eq_refl)),
        ?(proj1 (Hst _ eq_refl)), ?(Him _ eq_refl); reflexivity. }
  split; [rewrite length_map; reflexivity|].
  destruct o1 as [p1|], o2 as [p2|], o3 as [p3|], o4 as [p4|];
    unfold option_list; cbn [option_rect app map List.filter length];
    rewrite ?(bool_decide_eq_true_2 _ (proj2 (Hsm _ eq_refl))),
      ?(bool_decide_eq_true_2 _ (proj2 (Hla _ eq_refl))),
      ?(bool_decide_eq_true_2 _ (proj2 (Hst _ eq_refl)));
    cbn [length];
    try (destruct (bool_decide (pattern_severity p4 = high)); cbn [length]);
    (split; [lia|]); (split; [lia|]);
    intros Hless; try lia;
    rewrite (Him _ eq_refl); repeat (first [left; reflexivity | right]).
Qed.

End Patterns.

(** ** Evidence *)

Section Evidence.
Context `{Runtime}.
Import BaselineEngine EvidenceEngine.

(** What the loop body of [findSuspiciousTransactions] pushes for [tx]. *)
Lemma suspiciousEntries_sound a b accountTxs n m tx e :
  In e (suspiciousEntries a b accountTxs n m tx) ->
  stx_transaction e = tx /\ stx_txId e = tx_id tx
  /\ match stx_kind e with
     | baseline_deviation _ => tx_sender tx = a
     | frequency_spike k => k = n
     | sender_count_spike k => k = m /\ tx_receiver tx = a
     | similar_value_repeat k => (3 <= k)%nat
     | unusual_timing h => (0 <= h < 5)%Z
     end.
Proof.
  unfold suspiciousEntries. cbv zeta. rewrite !in_app_iff.
  intros [He|[He|[He|[He|He]]]].
  - destruct (isOutflow a tx) eqn:Hout; [|destruct He].
    destruct (hasDeviation _); [|destruct He]. destruct He as [<-|[]].
    cbn. repeat split. apply String.eqb_eq, Hout.
  - destruct (_ && _); [|destruct He]. destruct He as [<-|[]]. cbn. auto.
  - destruct (_ && _) eqn:Hc; [|destruct He]. destruct He as [<-|[]]. cbn.
    apply andb_true_iff in Hc as [Hc _]. apply andb_true_iff in Hc as [Hc _].
    repeat split. apply String.eqb_eq, Hc.
  - destruct (Nat.leb_spec 3 (length (similarTxs accountTxs tx))); [|destruct He].
    destruct He as [<-|[]]. cbn. auto.
  - destruct (checkUnusualTiming tx accountTxs) as [h|] eqn:Hh; [|destruct He].
    destruct He as [<-|[]]. cbn. repeat split.
    + unfold checkUnusualTiming in Hh. cbv zeta in Hh.
      destruct (JS.getHours (tx_timestamp tx)) as [h'|]; [|discriminate]. simpl in Hh.
      destruct (_ && _) eqn:Hr; [|discriminate]. destruct (JS.gt _ _); [|discriminate].
      injection Hh as ->. apply andb_true_iff in Hr as [Hlo _]. apply Z.leb_le, Hlo.
    + unfold checkUnusualTiming in Hh. cbv zeta in Hh.
      destruct (JS.getHours (tx_timestamp tx)) as [h'|]; [|discriminate]. simpl in Hh.
      destruct (_ && _) eqn:Hr; [|discriminate]. destruct (JS.gt _ _); [|discriminate].
      injection Hh as ->. apply andb_true_iff in Hr as [_ Hhi]. apply Z.ltb_lt, Hhi.
Qed.

Lemma suspiciousEntries_length a b accountTxs n m tx :
  (length (suspiciousEntries a b accountTxs n m tx) <= 5)%nat.
Proof.
  unfold suspiciousEntries. cbv zeta. rewrite !length_app.
  destruct (isOutflow a tx); [destruct (hasDeviation _)|];
    destruct (_ && _); destruct (_ && _); destruct (_ <=? _)%nat;
    destruct (checkUnusualTiming _ _); simpl; lia.
Qed.

Lemma flat_map_length_bound {A B} (f : A -> list B) (k : nat) (l : list A) :
  (forall x, length (f x) <= k)%nat -> (length (flat_map f l) <= k * length l)%nat.
Proof.
  intros Hf. induction l as [|x l IH]; simpl; [lia|].
  rewrite length_app. specialize (Hf x). lia.
Qed.

(** X12: every entry of [findSuspiciousTransactions] is about a transaction
    of the list that involves the account, and carries that transaction's
    id; a baseline deviation is recorded only for a payment the account sent,
    a sender-count spike only for one it received, an unusual timing only for
    an hour from 0 to 4.  A transaction gets at most five entries. *)
Theorem X12_suspicious_entries_belong_to_the_account
        (now : Z) (a : string) (txs : list Transaction) (b : Baseline) :
  let found := findSuspiciousTransactions now a txs b in
  Forall (fun e =>
            In (stx_transaction e) txs
            /\ involves a (stx_transaction e) = true
            /\ stx_txId e = tx_id (stx_transaction e)
            /\ match stx_kind e with
               | baseline_deviation _ => tx_sender (stx_transaction e) = a
               | sender_count_spike _ => tx_receiver (stx_transaction e) = a
               | similar_value_repeat k => (3 <= k)%nat
               | unusual_timing h => (0 <= h < 5)%Z
               | frequency_spike _ => True
               end) found
  /\ (length found <= 5 * length (List.filter (involves a) txs))%nat.
Proof.
  cbv zeta. unfold findSuspiciousTransactions. cbv zeta. split.
  - apply Forall_forall. intros e He.
    apply list_elem_of_In, in_flat_map in He as (tx & Hin & He).
    apply List.filter_In in Hin as [Hin Hinv].
    apply suspiciousEntries_sound in He as (-> & Hid & Hkind).
    split; [exact Hin|]. split; [exact Hinv|]. split; [exact Hid|].
    destruct (stx_kind e); tauto.
  - apply flat_map_length_bound. intros tx. apply suspiciousEntries_length.
Qed.

(** X13: the frequency spike compares the number of the account's
    transactions dated today with three times the baseline frequency, not the
    transaction at hand: when one transaction of the account is given a
    [frequency_spike] entry, every transaction that involves the account is
    given one, whatever its date. *)
Theorem X13_frequency_spike_marks_every_transaction_of_the_account
        (now : Z) (a : string) (txs : list Transaction) (b : Baseline)
        (e : SuspiciousTx) (n : nat) :
  In e (findSuspiciousTransactions now a txs b) ->
  stx_kind e = frequency_spike n ->
  n = length (List.filter (fun tx => JS.date_ge (tx_timestamp tx) (Some (JS.startOfDay now)))
                          (List.filter (involves a) txs))
  /\ forall tx, In tx txs -> involves a tx = true ->
       In {| stx_txId := tx_id tx; stx_kind := frequency_spike n; stx_transaction := tx |}
          (findSuspiciousTransactions now a txs b).
Proof.
  unfold findSuspiciousTransactions. cbv zeta.
  set (accountTxs := List.filter (involves a) txs).
  set (today := length (List.filter _ accountTxs)).
  set (senders := length (JS.setOf _)).
  intros He Hkind. apply in_flat_map in He as (tx0 & Hin0 & He).
  assert (Hspike : JS.gt (avgTxFrequency b) 0
                   && JS.gt (JS.ofNat today) (avgTxFrequency b * 3)%float = true /\ n = today).
  { unfold suspiciousEntries in He. cbv zeta in He. rewrite !in_app_iff in He.
    destruct He as [He|[He|[He|[He|He]]]].
    - destruct (isOutflow a tx0); [|destruct He].
      destruct (hasDeviation _); [|destruct He].
      destruct He as [<-|[]]. discriminate.
    - destruct (_ && _); [|destruct He]. destruct He as [<-|[]].
      injection Hkind as <-. auto.
    - destruct (_ && _); [|destruct He]. destruct He as [<-|[]]. discriminate.
    - destruct (_ <=? _)%nat; [|destruct He]. destruct He as [<-|[]]. discriminate.
    - destruct (checkUnusualTiming _ _); [|destruct He]. destruct He as [<-|[]]. discriminate. }
  destruct Hspike as [Hspike ->]. split; [reflexivity|].
  intros tx Hin Hinv. apply in_flat_map. exists tx.
  split; [apply List.filter_In; auto|].
  unfold suspiciousEntries. cbv zeta. rewrite Hspike, !in_app_iff.
  right. left. left. reflexivity.
Qed.

Lemma filter_none {A} (p q : A -> bool) (l : list A) :
  (forall x, In x l -> q x = false) -> (forall x, p x = true -> q x = true) ->
  List.filter p l = [].
Proof.
  intros Hq Hpq. apply filter_nil_iff. intros x Hx.
  destruct (p x) eqn:Hp; [|reflexivity].
  specialize (Hq x Hx). rewrite (Hpq x Hp) in Hq. discriminate.
Qed.

Lemma inflows_none a txs :
  (forall tx, In tx txs -> involves a tx = false) -> List.filter (isInflow a) txs = [].
Proof.
  intros Hun. apply filter_nil_iff. intros tx Hin. specialize (Hun tx Hin).
  unfold involves in Hun. apply orb_false_iff in Hun as [_ Hr]. exact Hr.
Qed.

Lemma outflows_none a txs :
  (forall tx, In tx txs -> involves a tx = false) -> List.filter (isOutflow a) txs = [].
Proof.
  intros Hun. apply filter_nil_iff. intros tx Hin. specialize (Hun tx Hin).
  unfold involves in Hun. apply orb_false_iff in Hun as [Hs _]. exact Hs.
Qed.

Lemma unseen_evaluation now a w :
  (forall tx, In tx (Store.getTransactions w) -> involves a tx = false) ->
  let e := evaluateAccount now a w in
  ev_score e = 0%Z /\ ev_riskLevel e = Normal
  /\ suspiciousTxs (ev_details e) = [] /\ patterns (ev_details e) = []
  /\ det_networkSignals (ev_details e) = []
  /\ ev_baseline e = getDefaultBaseline now a.
Proof.
  intros Hun. cbv zeta. unfold evaluateAccount. cbv zeta.
  set (txs := Store.getTransactions w) in *.
  assert (Hacc : List.filter (involves a) txs = []) by (apply filter_nil_iff, Hun).
  assert (Hin := inflows_none a txs Hun).
  assert (Hout := outflows_none a txs Hun).
  assert (Hbase : calculateBaseline now a txs = getDefaultBaseline now a).
  { unfold calculateBaseline. rewrite Hacc. reflexivity. }
  assert (Hsus : findSuspiciousTransactions now a txs (calculateBaseline now a txs) = []).
  { unfold findSuspiciousTransactions. cbv zeta. rewrite Hacc. reflexivity. }
  assert (Hpat : PatternDetector.detectPatterns now a txs = []).
  { unfold PatternDetector.detectPatterns. cbv zeta.
    assert (Hrecent : forall h, List.filter (isInflow a) (getRecentActivity now a txs h) = []).
    { intros h. apply filter_nil_iff. intros tx Htx.
      unfold getRecentActivity in Htx. cbv zeta in Htx.
      apply List.filter_In in Htx as [Htx _]. specialize (Hun tx Htx).
      unfold involves in Hun. apply orb_false_iff in Hun as [_ Hr]. exact Hr. }
    assert (Hsm : PatternDetector.detectSmurfing a (getRecentActivity now a txs 48) = None).
    { unfold PatternDetector.detectSmurfing. cbv zeta. rewrite Hrecent. reflexivity. }
    assert (Hla : PatternDetector.detectLayering a txs = None).
    { unfold PatternDetector.detectLayering. cbv zeta. rewrite Hin. reflexivity. }
    assert (Hst : PatternDetector.detectStructuring a txs (calculateBaseline now a txs) = None).
    { unfold PatternDetector.detectStructuring. cbv zeta.
      erewrite filter_none with (q := isOutflow a); [reflexivity | |].
      - apply filter_nil_iff, Hout.
      - intros tx Hp. apply andb_true_iff in Hp as [Hp _].
        apply andb_true_iff in Hp as [Hp _]. exact Hp. }
    assert (Hmi : PatternDetector.detectIncomeMismatch now a txs = None).
    { unfold PatternDetector.detectIncomeMismatch. cbv zeta. rewrite Hbase. reflexivity. }
    rewrite Hsm, Hla, Hst, Hmi. reflexivity. }
  assert (Hnet : na_signals (NetworkAnalyzer.analyzeAccount w a txs) = []).
  { unfold NetworkAnalyzer.analyzeAccount. cbv zeta. cbn [na_signals].
    assert (Hci : NetworkAnalyzer.detectCircularFlow a txs = None).
    { unfold NetworkAnalyzer.detectCircularFlow. cbv zeta.
      assert (Hpaths : NetworkAnalyzer.traceFundPaths a txs 5 [] [] = []).
      { cbn [NetworkAnalyzer.traceFundPaths last]. cbv zeta.
        erewrite filter_none with (q := isOutflow a); [reflexivity | |].
        - apply filter_nil_iff, Hout.
        - intros tx Hp. apply andb_true_iff in Hp as [Hp _]. exact Hp. }
      rewrite Hpaths. reflexivity. }
    assert (Hhu : NetworkAnalyzer.detectHubBehavior a txs = None).
    { unfold NetworkAnalyzer.detectHubBehavior. cbv zeta. rewrite Hin. reflexivity. }
    assert (Hfl : NetworkAnalyzer.detectFlaggedLinks w a txs = None).
    { unfold NetworkAnalyzer.detectFlaggedLinks. cbv zeta.
      destruct (NetworkAnalyzer.flaggedAccounts _); [reflexivity|].
      erewrite filter_none with (q := involves a); [reflexivity | exact Hun |].
      intros tx Hp. unfold involves. apply orb_true_iff in Hp as [Hp|Hp];
        apply andb_true_iff in Hp as [Hp _]; rewrite Hp; [reflexivity | apply orb_true_r]. }
    rewrite Hci, Hhu, Hfl. reflexivity. }
  cbn [ev_score ev_riskLevel ev_details suspiciousTxs patterns det_networkSignals ev_baseline].
  rewrite Hsus, Hpat, Hbase.
  unfold NetworkAnalyzer.analyzeAccount in *. cbv zeta in *. cbn [na_signals] in Hnet.
  rewrite Hnet. repeat split; reflexivity.
Qed.

(** X14: an account that no stored transaction involves evaluates to score
    0, level Normal, the default baseline and no evidence of any kind;
    [createAndSaveAlert] returns no alert for it and leaves the store as it
    is. *)
Theorem X14_unseen_account_is_normal_and_raises_no_alert
        (now : Z) (a : string) (w : World) :
  (forall tx, In tx (Store.getTransactions w) -> involves a tx = false) ->
  let e := evaluateAccount now a w in
  ev_score e = 0%Z /\ ev_riskLevel e = Normal
  /\ ev_evidence e = {| suspiciousTransactions := 0; confirmedPatterns := 0;
                        networkSignals := 0; isProbableML := false |}
  /\ ev_baseline e = getDefaultBaseline now a
  /\ AlertGenerator.createAndSaveAlert now a w = (None, w).
Proof.
  intros Hun. cbv zeta.
  destruct (unseen_evaluation now a w Hun) as (Hscore & Hlevel & Hsus & Hpat & Hnet & Hbase).
  split; [exact Hscore|]. split; [exact Hlevel|]. split.
  - unfold evaluateAccount in *. cbv zeta in *.
    cbn [ev_evidence ev_details suspiciousTxs patterns det_networkSignals] in *.
    unfold NetworkAnalyzer.analyzeAccount in *. cbv zeta in *.
    cbn [na_signals na_networkSignals na_isProbableML] in *.
    rewrite Hsus, Hpat, Hnet. reflexivity.
  - split; [exact Hbase|].
    unfold AlertGenerator.createAndSaveAlert. cbv zeta.
    unfold AlertGenerator.generateAlert. rewrite Hscore. reflexivity.
Qed.

Lemma detectPatterns_length now a txs :
  (length (PatternDetector.detectPatterns now a txs) <= 4)%nat.
Proof.
  unfold PatternDetector.detectPatterns. cbv zeta. rewrite !length_app.
  destruct (PatternDetector.detectSmurfing _ _), (PatternDetector.detectLayering _ _),
    (PatternDetector.detectStructuring _ _ _), (PatternDetector.detectIncomeMismatch _ _ _);
    simpl; lia.
Qed.

Lemma analyzeAccount_length w a txs :
  (na_networkSignals (NetworkAnalyzer.analyzeAccount w a txs) <= 3)%nat
  /\ na_isProbableML (NetworkAnalyzer.analyzeAccount w a txs)
     = (2 <=? na_networkSignals (NetworkAnalyzer.analyzeAccount w a txs))%nat.
Proof.
  unfold NetworkAnalyzer.analyzeAccount. cbv zeta.
  cbn [na_networkSignals na_isProbableML]. split; [|reflexivity].
  rewrite !length_app.
  destruct (NetworkAnalyzer.detectCircularFlow _ _), (NetworkAnalyzer.detectHubBehavior _ _),
    (NetworkAnalyzer.detectFlaggedLinks _ _ _); simpl; lia.
Qed.

(** X15: an evaluation counts at most four patterns and three network
    signals, and flags probable money laundering exactly from two signals on.
    Two network signals alone give the level Probable Money Laundering, one
    gives at least Suspicious; an account evaluated as Normal has no network
    signal, at most one pattern and at most two suspicious transactions. *)
Theorem X15_what_each_risk_level_takes (now : Z) (a : string) (w : World) :
  let e := evaluateAccount now a w in
  let s := suspiciousTransactions (ev_evidence e) in
  let p := confirmedPatterns (ev_evidence e) in
  let n := networkSignals (ev_evidence e) in
  (p <= 4)%nat /\ (n <= 3)%nat
  /\ isProbableML (ev_evidence e) = (2 <=? n)%nat
  /\ ((2 <= n)%nat -> ev_riskLevel e = ProbableML)
  /\ ((1 <= n)%nat -> ev_riskLevel e <> Normal)
  /\ (ev_riskLevel e = Normal -> n = 0%nat /\ (10 * s + 20 * p < 30)%nat).
Proof.
  cbv zeta. unfold evaluateAccount. cbv zeta.
  cbn [ev_evidence ev_riskLevel suspiciousTransactions confirmedPatterns
       networkSignals isProbableML].
  set (txs := Store.getTransactions w).
  set (sus := findSuspiciousTransactions now a txs _).
  pose proof (detectPatterns_length now a txs) as Hp.
  destruct (analyzeAccount_length w a txs) as [Hn Hml].
  set (pats := PatternDetector.detectPatterns now a txs) in *.
  set (net := NetworkAnalyzer.analyzeAccount w a txs) in *.
  split; [exact Hp|]. split; [exact Hn|]. split; [exact Hml|].
  unfold calculateScore, getRiskLevel. cbv zeta. cbn [weights suspiciousTransaction
    confirmedPattern networkSignal]. rewrite Hml.
  split; [|split].
  - intros Htwo. destruct (Nat.leb_spec 2 (na_networkSignals net)) as [_|Hlt]; [|lia].
    destruct (Z.leb_spec 80 (Z.min (0 + Z.of_nat (length sus) * 10
      + Z.of_nat (length pats) * 20 + Z.of_nat (na_networkSignals net) * 30 + 20) 100));
      [reflexivity | lia].
  - intros Hone.
    destruct (Nat.leb_spec 2 (na_networkSignals net));
      repeat match goal with |- context [(?x <=? ?y)%Z] => destruct (Z.leb_spec x y) end;
      try discriminate; lia.
  - destruct (Nat.leb_spec 2 (na_networkSignals net));
      repeat match goal with |- context [(?x <=? ?y)%Z] => destruct (Z.leb_spec x y) end;
      try discriminate; intros _; lia.
Qed.

End Evidence.

(** ** Batch evaluation *)

Section Batch.
Context `{Runtime}.
Import EvidenceEngine.

Lemma updateAccountEvidence_lookup e w b :
  accountEvidence (storage (updateAccountEvidence e w)) !! b =
  <[ev_accountId e := recordOf e]> (accountEvidence (storage w)) !! b.
Proof. reflexivity. Qed.

Lemma evaluateAccount_accountId now a w : ev_accountId (evaluateAccount now a w) = a.
Proof. reflexivity. Qed.

(** The loop of [evaluateAllAccounts], from any intermediate state. *)
Lemma evaluateAll_fold now accounts results w :
  NoDup accounts ->
  exists new,
    fst (fold_left
           (fun '(results, w) accountId =>
              let evaluation := evaluateAccount now accountId w in
              (results ++ [evaluation], updateAccountEvidence evaluation w))
           accounts (results, w)) = results ++ new
    /\ map ev_accountId new = accounts
    /\ (forall e, In e new ->
          accountEvidence (storage (snd (fold_left
            (fun '(results, w) accountId =>
               let evaluation := evaluateAccount now accountId w in
               (results ++ [evaluation], updateAccountEvidence evaluation w))
            accounts (results, w)))) !! ev_accountId e = Some (recordOf e))
    /\ (forall a, ~ In a accounts ->
          accountEvidence (storage (snd (fold_left
            (fun '(results, w) accountId =>
               let evaluation := evaluateAccount now accountId w in
               (results ++ [evaluation], updateAccountEvidence evaluation w))
            accounts (results, w)))) !! a = accountEvidence (storage w) !! a)
    /\ transactions (storage (snd (fold_left
            (fun '(results, w) accountId =>
               let evaluation := evaluateAccount now accountId w in
               (results ++ [evaluation], updateAccountEvidence evaluation w))
            accounts (results, w)))) = transactions (storage w)
    /\ auditLogs (storage (snd (fold_left
            (fun '(results, w) accountId =>
               let evaluation := evaluateAccount now accountId w in
               (results ++ [evaluation], updateAccountEvidence evaluation w))
            accounts (results, w)))) = auditLogs (storage w).
Proof.
  match goal with |- context [fold_left ?f _ _] => set (F := f) end.
  revert results w. induction accounts as [|a accounts IH]; intros results w Hnd.
  - exists []. cbn [fold_left fst snd]. rewrite app_nil_r.
    split; [reflexivity|]. split; [reflexivity|]. split; [intros e []|].
    split; [reflexivity|]. split; reflexivity.
  - apply NoDup_cons in Hnd as [Hfresh Hnd]. rewrite list_elem_of_In in Hfresh.
    set (e := evaluateAccount now a w).
    change (fold_left F (a :: accounts) (results, w))
      with (fold_left F accounts (results ++ [e], updateAccountEvidence e w)).
    destruct (IH (results ++ [e]) (updateAccountEvidence e w) Hnd)
      as (new & Hres & Hids & Hrec & Hother & Htx & Hlog).
    exists (e :: new). rewrite Hres, <- app_assoc. split; [reflexivity|].
    split; [cbn [map]; rewrite Hids; reflexivity|].
    split; [|split; [|split]].
    + intros e' [<-|Hin]; [|apply Hrec, Hin].
      rewrite Hother by exact Hfresh.
      rewrite updateAccountEvidence_lookup. apply lookup_insert_eq.
    + intros b Hb. rewrite Hother by (intros Hin; apply Hb; right; exact Hin).
      rewrite updateAccountEvidence_lookup. apply lookup_insert_ne.
      intros Heq. apply Hb. left. exact Heq.
    + rewrite Htx. reflexivity.
    + rewrite Hlog. reflexivity.
Qed.



Lemma score_counts (results : list Evaluation) :
  (length (List.filter (fun r => (60 <=? ev_score r)%Z) results)
   + length (List.filter (fun r => (30 <=? ev_score r)%Z && (ev_score r <? 60)%Z) results)
   = length (List.filter (fun r => (30 <=? ev_score r)%Z) results))%nat.
Proof.
  induction results as [|r results IH]; [reflexivity|]. cbn [List.filter].
  destruct (Z.leb_spec 60 (ev_score r)), (Z.leb_spec 30 (ev_score r)),
    (Z.ltb_spec (ev_score r) 60); cbn [andb length]; lia.
Qed.

(** The alert loop of [runFullAnalysis], from any intermediate state. *)
Lemma alert_loop now (results : list Evaluation) w :
  exists added,
    alerts (storage (fold_left
      (fun w evaluation =>
         if (30 <=? ev_score evaluation)%Z
         then snd (AlertGenerator.createAndSaveAlert now (ev_accountId evaluation) w)
         else w) results w)) = alerts (storage w) ++ added
    /\ (length added <= length (List.filter (fun r => (30 <=? ev_score r)%Z) results))%nat
    /\ Forall (fun al => al_timestamp al = now) added
    /\ transactions (storage (fold_left
      (fun w evaluation =>
         if (30 <=? ev_score evaluation)%Z
         then snd (AlertGenerator.createAndSaveAlert now (ev_accountId evaluation) w)
         else w) results w)) = transactions (storage w).
Proof.
  revert w. induction results as [|e results IH]; intros w.
  - exists []. cbn [fold_left]. rewrite app_nil_r. repeat split; constructor.
  - cbn [fold_left List.filter]. destruct (30 <=? ev_score e)%Z.
    + destruct (IH (snd (AlertGenerator.createAndSaveAlert now (ev_accountId e) w)))
        as (added & Ha & Hlen & Hts & Htx).
      rewrite Ha, Htx, createAndSaveAlert_transactions.
      destruct (createAndSaveAlert_alerts now (ev_accountId e) w)
        as [Hsame|(alert & Hg & _ & Hnew)].
      * exists added. rewrite Hsame. cbn [length]. repeat split; [lia | exact Hts].
      * exists (alert :: added). rewrite Hnew, <- app_assoc. cbn [length app].
        split; [reflexivity|]. split; [lia|]. split; [|reflexivity].
        constructor; [|exact Hts]. apply generateAlert_fields in Hg. apply Hg.
    + destruct (IH w) as (added & Ha & Hlen & Hts & Htx). exists added. auto.
Qed.

(** X17: [runFullAnalysis] reports the number of distinct accounts of the
    stored transactions and, of these, how many scored 60 or more and how
    many from 30 to 59.  Its [alertsGenerated] is the number of all alerts
    in the store after the run: the alerts that were there before, followed
    by the ones this run appended, at most one per account that scored 30
    or more.  The stored transactions are left as they were. *)
Theorem X17_full_analysis_counts (now : Z) (w : World) :
  let r := fst (AMLEngine.runFullAnalysis now w) in
  let w' := snd (AMLEngine.runFullAnalysis now w) in
  AMLEngine.totalAccounts r = length (allAccounts (Store.getTransactions w))
  /\ (AMLEngine.highRiskAccounts r + AMLEngine.suspiciousAccounts r
      <= AMLEngine.totalAccounts r)%nat
  /\ AMLEngine.alertsGenerated r = length (Store.getAlerts w')
  /\ (exists added,
        Store.getAlerts w' = Store.getAlerts w ++ added
        /\ (length added <= AMLEngine.highRiskAccounts r + AMLEngine.suspiciousAccounts r)%nat
        /\ Forall (fun al => al_timestamp al = now) added)
  /\ Store.getTransactions w' = Store.getTransactions w.
Proof.
  cbv zeta. unfold AMLEngine.runFullAnalysis.
  pose proof (evaluateAllAccounts_alerts now w) as Halerts.
  assert (Hall : map ev_accountId (fst (evaluateAllAccounts now w))
                 = allAccounts (Store.getTransactions w)
                 /\ transactions (storage (snd (evaluateAllAccounts now w)))
                    = transactions (storage w)).
  { unfold evaluateAllAccounts. cbv zeta.
    destruct (evaluateAll_fold now (allAccounts (Store.getTransactions w)) [] w
                (setOf_NoDup _)) as (new & Hres & Hids & _ & _ & Htx & _).
    cbn [app] in Hres. rewrite Hres. auto. }
  destruct Hall as [Hids Htx].
  destruct (evaluateAllAccounts now w) as [results w1]. cbn [fst snd] in *.
  cbn [AMLEngine.totalAccounts AMLEngine.highRiskAccounts AMLEngine.suspiciousAccounts
       AMLEngine.alertsGenerated].
  destruct (alert_loop now results w1) as (added & Ha & Hlen & Hts & Htx').
  rewrite score_counts.
  split; [rewrite <- Hids, length_map; reflexivity|].
  split; [apply List.filter_length_le|].
  split; [reflexivity|].
  split.
  - exists added. unfold Store.getAlerts, Store.getData. rewrite Ha, Halerts. auto.
  - unfold Store.getTransactions, Store.getData. rewrite Htx', Htx. reflexivity.
Qed.

End Batch.

(** ** One transaction through the pipeline *)

Section Process.
Context `{Runtime}.
Import EvidenceEngine.





(** *** The second evaluation inside [createAndSaveAlert] *)









End Process.

(** ** Runs: what every reachable store satisfies *)

Section Runs.
Context `{Runtime}.
Import EvidenceEngine.

(** An operation is made of three kinds of writes; what all three keep,
    every run keeps. *)
Section Preserved.
Variable Q : World -> Prop.
Hypothesis Q_addTransaction : forall now T w, Q w -> Q (Store.addTransaction now T w).
Hypothesis Q_updateAccountEvidence :
  forall now a w, Q w -> Q (updateAccountEvidence (evaluateAccount now a w) w).
Hypothesis Q_createAndSaveAlert :
  forall now a w, Q w -> Q (snd (AlertGenerator.createAndSaveAlert now a w)).






End Preserved.

(** *** Records and alerts keep their form *)




(** *** Nothing is taken away *)















End Runs.

(** ** The graph, the baselines of all accounts, the timeline *)

Section Views.
Context `{Runtime}.

(** X23: [buildNetworkGraph] makes one edge per transaction, in order, from
    its sender to its receiver with its amount, timestamp and id; the nodes
    are the distinct accounts that occur as sender or receiver, so both ends
    of every edge are nodes and every node is an end of some edge. *)
Theorem X23_network_graph_is_well_formed (txs : list Transaction) :
  let g := NetworkAnalyzer.buildNetworkGraph txs in
  map (fun e => (NetworkAnalyzer.source e, NetworkAnalyzer.target e,
                 NetworkAnalyzer.edge_amount e, NetworkAnalyzer.edge_timestamp e,
                 NetworkAnalyzer.edge_txId e)) (NetworkAnalyzer.edges g)
  = map (fun tx => (tx_sender tx, tx_receiver tx, tx_amount tx, tx_timestamp tx, tx_id tx)) txs
  /\ NoDup (NetworkAnalyzer.nodes g)
  /\ (forall e, In e (NetworkAnalyzer.edges g) ->
        In (NetworkAnalyzer.source e) (NetworkAnalyzer.nodes g)
        /\ In (NetworkAnalyzer.target e) (NetworkAnalyzer.nodes g))
  /\ (forall n, In n (NetworkAnalyzer.nodes g) ->
        exists e, In e (NetworkAnalyzer.edges g)
                  /\ (NetworkAnalyzer.source e = n \/ NetworkAnalyzer.target e = n)).
Proof.
  cbv zeta. unfold NetworkAnalyzer.buildNetworkGraph.
  cbn [NetworkAnalyzer.nodes NetworkAnalyzer.edges].
  split; [rewrite map_map; reflexivity|].
  split; [apply setOf_NoDup|].
  split.
  - intros e He. apply in_map_iff in He as (tx & <- & Hin).
    cbn [NetworkAnalyzer.source NetworkAnalyzer.target].
    split; apply setOf_In, in_flat_map; exists tx; (split; [exact Hin|]);
      [left | right; left]; reflexivity.
  - intros n Hn. apply setOf_In, in_flat_map in Hn as (tx & Hin & Hn).
    eexists. split; [apply in_map_iff; exists tx; split; [reflexivity | exact Hin]|].
    cbn [NetworkAnalyzer.source NetworkAnalyzer.target].
    destruct Hn as [Hn|[Hn|[]]]; auto.
Qed.



Lemma insert_sorted (x : TimelineEvent) (l : list TimelineEvent) :
  te_timestamp x <> None -> Forall (fun y => te_timestamp y <> None) l ->
  StronglySorted notLater l ->
  StronglySorted notLater
    (JS.insert (fun a b => JS.date_lt (te_timestamp a) (te_timestamp b)) x l).
Proof.
  intros Hx Hl Hs. induction l as [|y l IH]; cbn [JS.insert].
  - constructor; constructor.
  - apply Forall_cons in Hl as [Hy Hl].
    apply StronglySorted_inv in Hs as [Hs Hall].
    destruct (te_timestamp x) as [tx|] eqn:Htx; [|contradiction].
    destruct (te_timestamp y) as [ty|] eqn:Hty; [|contradiction].
    cbn [JS.date_lt]. destruct (Z.ltb_spec ty tx) as [Hlt|Hge].
    + constructor; [apply IH; assumption|].
      apply Forall_forall. intros z Hz.
      rewrite insert_Permutation in Hz.
      rewrite Forall_forall in Hall.
      apply elem_of_cons in Hz as [->|Hz]; [|apply Hall, Hz].
      exists ty, tx. rewrite Hty, Htx. repeat split; try reflexivity. lia.
    + constructor; [constructor; assumption|].
      constructor.
      * exists tx, ty. rewrite Htx, Hty. repeat split; try reflexivity. lia.
      * rewrite Forall_forall in Hall. apply Forall_forall. intros z Hz.
        destruct (Hall z Hz) as (u & v & Hu & Hv & Hle).
        rewrite Hty in Hu. injection Hu as <-.
        exists tx, v. rewrite Htx. repeat split; [exact Hv | lia].
Qed.

Lemma sort_sorted (l : list TimelineEvent) :
  Forall (fun y => te_timestamp y <> None) l ->
  StronglySorted notLater
    (JS.sort (fun a b => JS.date_lt (te_timestamp a) (te_timestamp b)) l).
Proof.
  induction l as [|x l IH]; intros Hl; cbn [JS.sort foldr]; [constructor|].
  apply Forall_cons in Hl as [Hx Hl].
  apply insert_sorted; [exact Hx | | apply IH, Hl].
  apply Forall_forall. intros z Hz. rewrite Forall_forall in Hl. apply Hl.
  apply list_elem_of_In. apply list_elem_of_In, sort_In in Hz. exact Hz.
Qed.

(** X25: the timeline of an alert has one event for each suspicious entry,
    dated as its transaction, and one for each pattern, dated at the clock;
    when the transactions of all suspicious entries have a timestamp that
    parses, the events are in time order. *)
Theorem X25_timeline_is_chronological (now : Z) (e : Evaluation) :
  Forall (fun stx => tx_timestamp (stx_transaction stx) <> None)
         (suspiciousTxs (ev_details e)) ->
  let timeline := AlertGenerator.generateTimeline now e in
  length timeline
  = (length (suspiciousTxs (ev_details e)) + length (patterns (ev_details e)))%nat
  /\ (forall stx, In stx (suspiciousTxs (ev_details e)) ->
        exists ev, In ev timeline
                   /\ te_timestamp ev = tx_timestamp (stx_transaction stx)
                   /\ te_txId ev = Some (stx_txId stx))
  /\ StronglySorted notLater timeline.
Proof.
  intros Hdated. cbv zeta. unfold AlertGenerator.generateTimeline. cbv zeta.
  split; [rewrite sort_length, length_app, !length_map; reflexivity|].
  split.
  - intros stx Hin. eexists. split.
    + apply sort_In, in_app_iff. left. apply in_map_iff. exists stx. split; [reflexivity|].
      exact Hin.
    + split; reflexivity.
  - apply sort_sorted, Forall_app. split.
    + apply Forall_forall. intros ev Hev.
      apply list_elem_of_In, in_map_iff in Hev as (stx & <- & Hin).
      rewrite Forall_forall in Hdated. apply Hdated, list_elem_of_In, Hin.
    + apply Forall_forall. intros ev Hev.
      apply list_elem_of_In, in_map_iff in Hev as (p & <- & _). discriminate.
Qed.

End Views.

(** ** Users, sessions and stored transactions *)

Section Accounts.
Context `{Runtime}.

Lemma find_username_none (l : list User) (name : string) :
  List.find (fun u => String.eqb (username u) name) l = None <-> ~ In name (map username l).
Proof.
  induction l as [|u l IH]; cbn [List.find map]; [split; [intros _ [] | reflexivity]|].
  destruct (String.eqb_spec (username u) name) as [Heq|Hne].
  - split; [discriminate | intros Hn; destruct Hn; left; exact Heq].
  - rewrite IH. split; [intros Hn [Heq|Hin]; contradiction | intros Hn Hin; apply Hn; right; exact Hin].
Qed.

(** X26: [register] refuses a username that a stored user has, and then
    leaves the store as it is; otherwise it appends the new user with the
    given name, password and role, keeps the other users, logs one audit
    entry, and keeps usernames distinct if they were.  The registered user
    can then log in with these credentials. *)
Theorem X26_register_keeps_usernames_distinct
        (now : Z) (name pass userRole : string) (w : World) :
  let out := fst (Auth.register now name pass userRole w) in
  let w' := snd (Auth.register now name pass userRole w) in
  let newUser := {| user_id := "u" +:+ JS.showZ now; username := name;
                    role := userRole; password := pass |} in
  (In name (map username (users (Store.getData w))) ->
     out = Auth.failure "Username already exists" /\ w' = w)
  /\ (~ In name (map username (users (Store.getData w))) ->
        out = Auth.success None "Registration successful"
        /\ users (Store.getData w') = users (Store.getData w) ++ [newUser]
        /\ (exists entry, Store.getAuditLogs w' = entry :: Store.getAuditLogs w
                          /\ log_action entry = "User Registered")
        /\ (NoDup (map username (users (Store.getData w))) ->
            NoDup (map username (users (Store.getData w'))))
        /\ forall later s,
             fst (fst (Auth.login later name pass s w')) = Auth.success (Some newUser) "").
Proof.
  cbv zeta. unfold Auth.register.
  pose proof (find_username_none (users (Store.getData w)) name) as Hfind.
  destruct (List.find _ (users (Store.getData w))) as [u|] eqn:Hf.
  - split; [intros _; split; reflexivity|].
    intros Hno. apply Hfind in Hno. discriminate.
  - split; [intros Hin; destruct (proj1 Hfind eq_refl Hin)|].
    intros Hno. cbn [fst snd]. split; [reflexivity|]. split; [reflexivity|].
    split; [eexists; split; reflexivity|].
    split.
    + intros Hnd. unfold Store.addUser, Store.getData. cbn.
      rewrite map_app. apply NoDup_app. split; [exact Hnd|].
      split; [|apply NoDup_singleton].
      intros x Hx Hx'. apply list_elem_of_In in Hx.
      apply list_elem_of_singleton in Hx'. subst x. contradiction.
    + intros later s. unfold Auth.login.
      assert (Hlogin : List.find
                (fun u => String.eqb (username u) name && String.eqb (password u) pass)
                (users (Store.getData (Store.addUser now
                   {| user_id := "u" +:+ JS.showZ now; username := name;
                      role := userRole; password := pass |} w)))
              = Some {| user_id := "u" +:+ JS.showZ now; username := name;
                        role := userRole; password := pass |}).
      { unfold Store.addUser, Store.getData. cbn [storage users set_users Store.saveData
          Store.logAudit set_auditLogs].
        cbn. rewrite find_snoc.
        assert (Hold : List.find
                  (fun u => String.eqb (username u) name && String.eqb (password u) pass)
                  (users (storage w)) = None).
        { destruct (List.find _ (users (storage w))) as [u0|] eqn:Hu0; [|reflexivity].
          apply List.find_some in Hu0 as [Hin Hp]. apply andb_true_iff in Hp as [Hn _].
          apply String.eqb_eq in Hn. destruct Hno. apply in_map_iff. exists u0. auto. }
        rewrite Hold. cbn [username password]. rewrite !String.eqb_refl. reflexivity. }
      rewrite Hlogin. reflexivity.
Qed.





End Accounts.

(** ** The theorems at work on examples *)

Section Witnesses.
Import Examples.


(** A, whose only transaction is an hour old, is one day old. *)
Lemma X6_witness :
  (exists tx, In tx history /\ BaselineEngine.involves "A" tx = true)
  /\ (1 <= accountAge (BaselineEngine.calculateBaseline t0 "A" history))%Z.
Proof.
  assert (Hseen : exists tx, In tx history /\ BaselineEngine.involves "A" tx = true).
  { eexists. split; [left; reflexivity | reflexivity]. }
  split; [exact Hseen|].
  apply (X6_account_age_at_least_one_day_without_postdating t0 "A" history Hseen).
  intros tx [<-|[]] _. cbn. unfold t0, hour. lia.
Defined.

(** The age of A, 21 days after its first payment, is 21. *)
Lemma X7_witness :
  exists (first : Transaction) (t : Z),
    In first payments /\ BaselineEngine.involves "A" first = true
    /\ tx_timestamp first = Some t
    /\ (forall tx u, In tx payments -> BaselineEngine.involves "A" tx = true ->
                     tx_timestamp tx = Some u -> (t <= u)%Z)
    /\ accountAge (BaselineEngine.calculateBaseline (t0 + 21 * day) "A" payments)
       = (if ((t0 + 21 * day - t) `div` 86400000 =? 0)%Z
          then 1 else (t0 + 21 * day - t) `div` 86400000)%Z.
Proof.
  apply (X7_account_age_counts_from_the_earliest_transaction (t0 + 21 * day) "A" payments).
  - eexists. split; [left; reflexivity | reflexivity].
  - intros tx [<-|[<-|[<-|[]]]] _; discriminate.
Defined.

(** L passes on what it receives three times: three cycles. *)
Lemma X9_witness :
  exists p cycles avg,
    PatternDetector.detectLayering "L" layered = Some p
    /\ p = layering cycles avg
    /\ (3 <= length cycles <= length (List.filter (BaselineEngine.isInflow "L") layered))%nat
    /\ Forall (rapidInOut "L" layered) cycles.
Proof.
  destruct (PatternDetector.detectLayering "L" layered) as [p|] eqn:Hd;
    [|vm_compute in Hd; discriminate Hd].
  destruct (X9_layering_cycles_are_rapid_in_out_pairs "L" layered p Hd)
    as (cycles & avg & Hp & Hlen & Hall).
  exists p, cycles, avg. auto.
Defined.


(** A, one hour old, is not checked for income mismatch. *)
Lemma X11_witness :
  PatternDetector.detectIncomeMismatch t0 "A" history = None.
Proof.
  apply (X11_no_income_mismatch_within_the_first_week t0 "A" history).
  intros tx [<-|[]] _. cbn. unfold t0, hour. lia.
Defined.

(** Four payments today against one in ten days: the payment of ten days
    ago is marked as well. *)
Lemma X13_witness :
  In {| stx_txId := "F5"; stx_kind := frequency_spike 4;
        stx_transaction := tx "F5" "F" "G" 100 (t0 - 1000) |}
     (@EvidenceEngine.findSuspiciousTransactions host t0 "F" busy
        (BaselineEngine.calculateBaseline t0 "F" busy))
  /\ In {| stx_txId := "F1"; stx_kind := frequency_spike 4; stx_transaction := long_ago |}
        (@EvidenceEngine.findSuspiciousTransactions host t0 "F" busy
           (BaselineEngine.calculateBaseline t0 "F" busy)).
Proof.
  assert (Hnew : In {| stx_txId := "F5"; stx_kind := frequency_spike 4;
                       stx_transaction := tx "F5" "F" "G" 100 (t0 - 1000) |}
                    (@EvidenceEngine.findSuspiciousTransactions host t0 "F" busy
                       (BaselineEngine.calculateBaseline t0 "F" busy))).
  { vm_compute. left. reflexivity. }
  split; [exact Hnew|].
  refine (proj2 (@X13_frequency_spike_marks_every_transaction_of_the_account host t0 "F" busy
                   (BaselineEngine.calculateBaseline t0 "F" busy) _ 4 Hnew eq_refl)
            long_ago _ eq_refl).
  right. right. right. right. left. reflexivity.
Defined.

(** An account that took no part in scenario 4. *)
Lemma X14_witness :
  ev_score (@EvidenceEngine.evaluateAccount host (t0 + hour) "N" afterRing) = 0%Z
  /\ @AlertGenerator.createAndSaveAlert host (t0 + hour) "N" afterRing = (None, afterRing).
Proof.
  assert (Hun : forall tx, In tx (Store.getTransactions afterRing) ->
                           BaselineEngine.involves "N" tx = false).
  { intros tx Hin. vm_compute in Hin.
    destruct Hin as [<-|[<-|[<-|[]]]]; reflexivity. }
  destruct (@X14_unseen_account_is_normal_and_raises_no_alert host (t0 + hour) "N" afterRing Hun)
    as (Hscore & _ & _ & _ & Hnone).
  split; [exact Hscore | exact Hnone].
Defined.


(** The timeline of A after its three payments. *)
Lemma X25_witness :
  (1 <= length (suspiciousTxs (ev_details
          (@EvidenceEngine.evaluateAccount host (t0 + 21 * day) "A" paid))))%nat
  /\ StronglySorted notLater
       (@AlertGenerator.generateTimeline (t0 + 21 * day)
          (@EvidenceEngine.evaluateAccount host (t0 + 21 * day) "A" paid)).
Proof.
  split; [vm_compute; lia|].
  apply (X25_timeline_is_chronological (t0 + 21 * day)
           (@EvidenceEngine.evaluateAccount host (t0 + 21 * day) "A" paid)).
  vm_compute. repeat (constructor; [discriminate|]). constructor.
Defined.

End Witnesses.
